(** * Verification of src/app.py (EnhancedTraumaAssessmentApp)

    Shallow embedding of the session object of the trauma-assessment app:
    onboarding, chat turns, report synthesis, the push to the external
    platform, the background polling loop for the specialist reply, the
    reply rendering and the "New Conversation" reset of the UI layer.

    Effects: the external collaborators (the language model [chat], the
    HTTP POST, the lookup-store query and [datetime.now()]) are passed in
    as explicit arguments describing what they returned; the session object
    is an explicit state record, threaded through every operation. *)

From Stdlib Require Import String Ascii List ZArith QArith Bool Lia.
Import ListNotations.
Open Scope nat_scope.
Open Scope string_scope.

(* ------------------------------------------------------------------ *)
(** ** Python string helpers

    A Python [str] is held as the UTF-8 encoding of its code points. The
    case mappings are those of [str.lower], [str.upper] and [str.title]
    (CPython's full mappings, with the final-sigma rule of [lower]); the
    tables list the Unicode 14.0 data those methods use. *)

Section PyStrings.
Local Open Scope Z_scope.

(** UTF-8: a Python [str] is held as the UTF-8 encoding of its code points. *)
Definition byte_val (a : ascii) : Z := Z.of_N (N_of_ascii a).
Definition byte_of (z : Z) : ascii := ascii_of_N (Z.to_N z).

Fixpoint utf8_decode (s : string) : list Z :=
  match s with
  | EmptyString => []
  | String a r =>
      let b := byte_val a in
      if b <? 128 then b :: utf8_decode r
      else if b <? 224 then
        match r with
        | String a1 r1 => ((b - 192) * 64 + (byte_val a1 - 128)) :: utf8_decode r1
        | EmptyString => [b]
        end
      else if b <? 240 then
        match r with
        | String a1 (String a2 r2) =>
            ((b - 224) * 4096 + (byte_val a1 - 128) * 64 + (byte_val a2 - 128))
              :: utf8_decode r2
        | _ => [b]
        end
      else
        match r with
        | String a1 (String a2 (String a3 r3)) =>
            ((b - 240) * 262144 + (byte_val a1 - 128) * 4096
               + (byte_val a2 - 128) * 64 + (byte_val a3 - 128)) :: utf8_decode r3
        | _ => [b]
        end
  end.

Definition encode_cp (c : Z) : string :=
  if c <? 128 then String (byte_of c) EmptyString
  else if c <? 2048 then
    String (byte_of (192 + c / 64)) (String (byte_of (128 + c mod 64)) EmptyString)
  else if c <? 65536 then
    String (byte_of (224 + c / 4096))
      (String (byte_of (128 + (c / 64) mod 64)) (String (byte_of (128 + c mod 64)) EmptyString))
  else
    String (byte_of (240 + c / 262144))
      (String (byte_of (128 + (c / 4096) mod 64))
        (String (byte_of (128 + (c / 64) mod 64)) (String (byte_of (128 + c mod 64)) EmptyString))).

Fixpoint utf8_encode (l : list Z) : string :=
  match l with
  | [] => EmptyString
  | c :: r => encode_cp c ++ utf8_encode r
  end.


(** The case tables. *)

Definition lower_table : list (Z * Z * Z * Z) := [
  (65, 90, 1, 32);
  (192, 214, 1, 32);
  (216, 222, 1, 32);
  (256, 302, 2, 1);
  (306, 310, 2, 1);
  (313, 327, 2, 1);
  (330, 374, 2, 1);
  (376, 376, 1, (-121));
  (377, 381, 2, 1);
  (385, 385, 1, 210);
  (386, 388, 2, 1);
  (390, 390, 1, 206);
  (391, 391, 1, 1);
  (393, 394, 1, 205);
  (395, 395, 1, 1);
  (398, 398, 1, 79);
  (399, 399, 1, 202);
  (400, 400, 1, 203);
  (401, 401, 1, 1);
  (403, 403, 1, 205);
  (404, 404, 1, 207);
  (406, 406, 1, 211);
  (407, 407, 1, 209);
  (408, 408, 1, 1);
  (412, 412, 1, 211);
  (413, 413, 1, 213);
  (415, 415, 1, 214);
  (416, 420, 2, 1);
  (422, 422, 1, 218);
  (423, 423, 1, 1);
  (425, 425, 1, 218);
  (428, 428, 1, 1);
  (430, 430, 1, 218);
  (431, 431, 1, 1);
  (433, 434, 1, 217);
  (435, 437, 2, 1);
  (439, 439, 1, 219);
  (440, 440, 1, 1);
  (444, 444, 1, 1);
  (452, 452, 1, 2);
  (453, 453, 1, 1);
  (455, 455, 1, 2);
  (456, 456, 1, 1);
  (458, 458, 1, 2);
  (459, 475, 2, 1);
  (478, 494, 2, 1);
  (497, 497, 1, 2);
  (498, 500, 2, 1);
  (502, 502, 1, (-97));
  (503, 503, 1, (-56));
  (504, 542, 2, 1);
  (544, 544, 1, (-130));
  (546, 562, 2, 1);
  (570, 570, 1, 10795);
  (571, 571, 1, 1);
  (573, 573, 1, (-163));
  (574, 574, 1, 10792);
  (577, 577, 1, 1);
  (579, 579, 1, (-195));
  (580, 580, 1, 69);
  (581, 581, 1, 71);
  (582, 590, 2, 1);
  (880, 882, 2, 1);
  (886, 886, 1, 1);
  (895, 895, 1, 116);
  (902, 902, 1, 38);
  (904, 906, 1, 37);
  (908, 908, 1, 64);
  (910, 911, 1, 63);
  (913, 929, 1, 32);
  (931, 939, 1, 32);
  (975, 975, 1, 8);
  (984, 1006, 2, 1);
  (1012, 1012, 1, (-60));
  (1015, 1015, 1, 1);
  (1017, 1017, 1, (-7));
  (1018, 1018, 1, 1);
  (1021, 1023, 1, (-130));
  (1024, 1039, 1, 80);
  (1040, 1071, 1, 32);
  (1120, 1152, 2, 1);
  (1162, 1214, 2, 1);
  (1216, 1216, 1, 15);
  (1217, 1229, 2, 1);
  (1232, 1326, 2, 1);
  (1329, 1366, 1, 48);
  (4256, 4293, 1, 7264);
  (4295, 4295, 1, 7264);
  (4301, 4301, 1, 7264);
  (5024, 5103, 1, 38864);
  (5104, 5109, 1, 8);
  (7312, 7354, 1, (-3008));
  (7357, 7359, 1, (-3008));
  (7680, 7828, 2, 1);
  (7838, 7838, 1, (-7615));
  (7840, 7934, 2, 1);
  (7944, 7951, 1, (-8));
  (7960, 7965, 1, (-8));
  (7976, 7983, 1, (-8));
  (7992, 7999, 1, (-8));
  (8008, 8013, 1, (-8));
  (8025, 8031, 2, (-8));
  (8040, 8047, 1, (-8));
  (8072, 8079, 1, (-8));
  (8088, 8095, 1, (-8));
  (8104, 8111, 1, (-8));
  (8120, 8121, 1, (-8));
  (8122, 8123, 1, (-74));
  (8124, 8124, 1, (-9));
  (8136, 8139, 1, (-86));
  (8140, 8140, 1, (-9));
  (8152, 8153, 1, (-8));
  (8154, 8155, 1, (-100));
  (8168, 8169, 1, (-8));
  (8170, 8171, 1, (-112));
  (8172, 8172, 1, (-7));
  (8184, 8185, 1, (-128));
  (8186, 8187, 1, (-126));
  (8188, 8188, 1, (-9));
  (8486, 8486, 1, (-7517));
  (8490, 8490, 1, (-8383));
  (8491, 8491, 1, (-8262));
  (8498, 8498, 1, 28);
  (8544, 8559, 1, 16);
  (8579, 8579, 1, 1);
  (9398, 9423, 1, 26);
  (11264, 11311, 1, 48);
  (11360, 11360, 1, 1);
  (11362, 11362, 1, (-10743));
  (11363, 11363, 1, (-3814));
  (11364, 11364, 1, (-10727));
  (11367, 11371, 2, 1);
  (11373, 11373, 1, (-10780));
  (11374, 11374, 1, (-10749));
  (11375, 11375, 1, (-10783));
  (11376, 11376, 1, (-10782));
  (11378, 11378, 1, 1);
  (11381, 11381, 1, 1);
  (11390, 11391, 1, (-10815));
  (11392, 11490, 2, 1);
  (11499, 11501, 2, 1);
  (11506, 11506, 1, 1);
  (42560, 42604, 2, 1);
  (42624, 42650, 2, 1);
  (42786, 42798, 2, 1);
  (42802, 42862, 2, 1);
  (42873, 42875, 2, 1);
  (42877, 42877, 1, (-35332));
  (42878, 42886, 2, 1);
  (42891, 42891, 1, 1);
  (42893, 42893, 1, (-42280));
  (42896, 42898, 2, 1);
  (42902, 42920, 2, 1);
  (42922, 42922, 1, (-42308));
  (42923, 42923, 1, (-42319));
  (42924, 42924, 1, (-42315));
  (42925, 42925, 1, (-42305));
  (42926, 42926, 1, (-42308));
  (42928, 42928, 1, (-42258));
  (42929, 42929, 1, (-42282));
  (42930, 42930, 1, (-42261));
  (42931, 42931, 1, 928);
  (42932, 42946, 2, 1);
  (42948, 42948, 1, (-48));
  (42949, 42949, 1, (-42307));
  (42950, 42950, 1, (-35384));
  (42951, 42953, 2, 1);
  (42960, 42960, 1, 1);
  (42966, 42968, 2, 1);
  (42997, 42997, 1, 1);
  (65313, 65338, 1, 32);
  (66560, 66599, 1, 40);
  (66736, 66771, 1, 40);
  (66928, 66938, 1, 39);
  (66940, 66954, 1, 39);
  (66956, 66962, 1, 39);
  (66964, 66965, 1, 39);
  (68736, 68786, 1, 64);
  (71840, 71871, 1, 32);
  (93760, 93791, 1, 32);
  (125184, 125217, 1, 34)].

Definition lower_special : list (Z * list Z) := [
  (304, [105; 775])].

Definition upper_table : list (Z * Z * Z * Z) := [
  (97, 122, 1, (-32));
  (181, 181, 1, 743);
  (224, 246, 1, (-32));
  (248, 254, 1, (-32));
  (255, 255, 1, 121);
  (257, 303, 2, (-1));
  (305, 305, 1, (-232));
  (307, 311, 2, (-1));
  (314, 328, 2, (-1));
  (331, 375, 2, (-1));
  (378, 382, 2, (-1));
  (383, 383, 1, (-300));
  (384, 384, 1, 195);
  (387, 389, 2, (-1));
  (392, 392, 1, (-1));
  (396, 396, 1, (-1));
  (402, 402, 1, (-1));
  (405, 405, 1, 97);
  (409, 409, 1, (-1));
  (410, 410, 1, 163);
  (414, 414, 1, 130);
  (417, 421, 2, (-1));
  (424, 424, 1, (-1));
  (429, 429, 1, (-1));
  (432, 432, 1, (-1));
  (436, 438, 2, (-1));
  (441, 441, 1, (-1));
  (445, 445, 1, (-1));
  (447, 447, 1, 56);
  (453, 453, 1, (-1));
  (454, 454, 1, (-2));
  (456, 456, 1, (-1));
  (457, 457, 1, (-2));
  (459, 459, 1, (-1));
  (460, 460, 1, (-2));
  (462, 476, 2, (-1));
  (477, 477, 1, (-79));
  (479, 495, 2, (-1));
  (498, 498, 1, (-1));
  (499, 499, 1, (-2));
  (501, 501, 1, (-1));
  (505, 543, 2, (-1));
  (547, 563, 2, (-1));
  (572, 572, 1, (-1));
  (575, 576, 1, 10815);
  (578, 578, 1, (-1));
  (583, 591, 2, (-1));
  (592, 592, 1, 10783);
  (593, 593, 1, 10780);
  (594, 594, 1, 10782);
  (595, 595, 1, (-210));
  (596, 596, 1, (-206));
  (598, 599, 1, (-205));
  (601, 601, 1, (-202));
  (603, 603, 1, (-203));
  (604, 604, 1, 42319);
  (608, 608, 1, (-205));
  (609, 609, 1, 42315);
  (611, 611, 1, (-207));
  (613, 613, 1, 42280);
  (614, 614, 1, 42308);
  (616, 616, 1, (-209));
  (617, 617, 1, (-211));
  (618, 618, 1, 42308);
  (619, 619, 1, 10743);
  (620, 620, 1, 42305);
  (623, 623, 1, (-211));
  (625, 625, 1, 10749);
  (626, 626, 1, (-213));
  (629, 629, 1, (-214));
  (637, 637, 1, 10727);
  (640, 640, 1, (-218));
  (642, 642, 1, 42307);
  (643, 643, 1, (-218));
  (647, 647, 1, 42282);
  (648, 648, 1, (-218));
  (649, 649, 1, (-69));
  (650, 651, 1, (-217));
  (652, 652, 1, (-71));
  (658, 658, 1, (-219));
  (669, 669, 1, 42261);
  (670, 670, 1, 42258);
  (837, 837, 1, 84);
  (881, 883, 2, (-1));
  (887, 887, 1, (-1));
  (891, 893, 1, 130);
  (940, 940, 1, (-38));
  (941, 943, 1, (-37));
  (945, 961, 1, (-32));
  (962, 962, 1, (-31));
  (963, 971, 1, (-32));
  (972, 972, 1, (-64));
  (973, 974, 1, (-63));
  (976, 976, 1, (-62));
  (977, 977, 1, (-57));
  (981, 981, 1, (-47));
  (982, 982, 1, (-54));
  (983, 983, 1, (-8));
  (985, 1007, 2, (-1));
  (1008, 1008, 1, (-86));
  (1009, 1009, 1, (-80));
  (1010, 1010, 1, 7);
  (1011, 1011, 1, (-116));
  (1013, 1013, 1, (-96));
  (1016, 1016, 1, (-1));
  (1019, 1019, 1, (-1));
  (1072, 1103, 1, (-32));
  (1104, 1119, 1, (-80));
  (1121, 1153, 2, (-1));
  (1163, 1215, 2, (-1));
  (1218, 1230, 2, (-1));
  (1231, 1231, 1, (-15));
  (1233, 1327, 2, (-1));
  (1377, 1414, 1, (-48));
  (4304, 4346, 1, 3008);
  (4349, 4351, 1, 3008);
  (5112, 5117, 1, (-8));
  (7296, 7296, 1, (-6254));
  (7297, 7297, 1, (-6253));
  (7298, 7298, 1, (-6244));
  (7299, 7300, 1, (-6242));
  (7301, 7301, 1, (-6243));
  (7302, 7302, 1, (-6236));
  (7303, 7303, 1, (-6181));
  (7304, 7304, 1, 35266);
  (7545, 7545, 1, 35332);
  (7549, 7549, 1, 3814);
  (7566, 7566, 1, 35384);
  (7681, 7829, 2, (-1));
  (7835, 7835, 1, (-59));
  (7841, 7935, 2, (-1));
  (7936, 7943, 1, 8);
  (7952, 7957, 1, 8);
  (7968, 7975, 1, 8);
  (7984, 7991, 1, 8);
  (8000, 8005, 1, 8);
  (8017, 8023, 2, 8);
  (8032, 8039, 1, 8);
  (8048, 8049, 1, 74);
  (8050, 8053, 1, 86);
  (8054, 8055, 1, 100);
  (8056, 8057, 1, 128);
  (8058, 8059, 1, 112);
  (8060, 8061, 1, 126);
  (8112, 8113, 1, 8);
  (8126, 8126, 1, (-7205));
  (8144, 8145, 1, 8);
  (8160, 8161, 1, 8);
  (8165, 8165, 1, 7);
  (8526, 8526, 1, (-28));
  (8560, 8575, 1, (-16));
  (8580, 8580, 1, (-1));
  (9424, 9449, 1, (-26));
  (11312, 11359, 1, (-48));
  (11361, 11361, 1, (-1));
  (11365, 11365, 1, (-10795));
  (11366, 11366, 1, (-10792));
  (11368, 11372, 2, (-1));
  (11379, 11379, 1, (-1));
  (11382, 11382, 1, (-1));
  (11393, 11491, 2, (-1));
  (11500, 11502, 2, (-1));
  (11507, 11507, 1, (-1));
  (11520, 11557, 1, (-7264));
  (11559, 11559, 1, (-7264));
  (11565, 11565, 1, (-7264));
  (42561, 42605, 2, (-1));
  (42625, 42651, 2, (-1));
  (42787, 42799, 2, (-1));
  (42803, 42863, 2, (-1));
  (42874, 42876, 2, (-1));
  (42879, 42887, 2, (-1));
  (42892, 42892, 1, (-1));
  (42897, 42899, 2, (-1));
  (42900, 42900, 1, 48);
  (42903, 42921, 2, (-1));
  (42933, 42947, 2, (-1));
  (42952, 42954, 2, (-1));
  (42961, 42961, 1, (-1));
  (42967, 42969, 2, (-1));
  (42998, 42998, 1, (-1));
  (43859, 43859, 1, (-928));
  (43888, 43967, 1, (-38864));
  (65345, 65370, 1, (-32));
  (66600, 66639, 1, (-40));
  (66776, 66811, 1, (-40));
  (66967, 66977, 1, (-39));
  (66979, 66993, 1, (-39));
  (66995, 67001, 1, (-39));
  (67003, 67004, 1, (-39));
  (68800, 68850, 1, (-64));
  (71872, 71903, 1, (-32));
  (93792, 93823, 1, (-32));
  (125218, 125251, 1, (-34))].

Definition upper_special : list (Z * list Z) := [
  (223, [83; 83]);
  (329, [700; 78]);
  (496, [74; 780]);
  (912, [921; 776; 769]);
  (944, [933; 776; 769]);
  (1415, [1333; 1362]);
  (7830, [72; 817]);
  (7831, [84; 776]);
  (7832, [87; 778]);
  (7833, [89; 778]);
  (7834, [65; 702]);
  (8016, [933; 787]);
  (8018, [933; 787; 768]);
  (8020, [933; 787; 769]);
  (8022, [933; 787; 834]);
  (8064, [7944; 921]);
  (8065, [7945; 921]);
  (8066, [7946; 921]);
  (8067, [7947; 921]);
  (8068, [7948; 921]);
  (8069, [7949; 921]);
  (8070, [7950; 921]);
  (8071, [7951; 921]);
  (8072, [7944; 921]);
  (8073, [7945; 921]);
  (8074, [7946; 921]);
  (8075, [7947; 921]);
  (8076, [7948; 921]);
  (8077, [7949; 921]);
  (8078, [7950; 921]);
  (8079, [7951; 921]);
  (8080, [7976; 921]);
  (8081, [7977; 921]);
  (8082, [7978; 921]);
  (8083, [7979; 921]);
  (8084, [7980; 921]);
  (8085, [7981; 921]);
  (8086, [7982; 921]);
  (8087, [7983; 921]);
  (8088, [7976; 921]);
  (8089, [7977; 921]);
  (8090, [7978; 921]);
  (8091, [7979; 921]);
  (8092, [7980; 921]);
  (8093, [7981; 921]);
  (8094, [7982; 921]);
  (8095, [7983; 921]);
  (8096, [8040; 921]);
  (8097, [8041; 921]);
  (8098, [8042; 921]);
  (8099, [8043; 921]);
  (8100, [8044; 921]);
  (8101, [8045; 921]);
  (8102, [8046; 921]);
  (8103, [8047; 921]);
  (8104, [8040; 921]);
  (8105, [8041; 921]);
  (8106, [8042; 921]);
  (8107, [8043; 921]);
  (8108, [8044; 921]);
  (8109, [8045; 921]);
  (8110, [8046; 921]);
  (8111, [8047; 921]);
  (8114, [8122; 921]);
  (8115, [913; 921]);
  (8116, [902; 921]);
  (8118, [913; 834]);
  (8119, [913; 834; 921]);
  (8124, [913; 921]);
  (8130, [8138; 921]);
  (8131, [919; 921]);
  (8132, [905; 921]);
  (8134, [919; 834]);
  (8135, [919; 834; 921]);
  (8140, [919; 921]);
  (8146, [921; 776; 768]);
  (8147, [921; 776; 769]);
  (8150, [921; 834]);
  (8151, [921; 776; 834]);
  (8162, [933; 776; 768]);
  (8163, [933; 776; 769]);
  (8164, [929; 787]);
  (8166, [933; 834]);
  (8167, [933; 776; 834]);
  (8178, [8186; 921]);
  (8179, [937; 921]);
  (8180, [911; 921]);
  (8182, [937; 834]);
  (8183, [937; 834; 921]);
  (8188, [937; 921]);
  (64256, [70; 70]);
  (64257, [70; 73]);
  (64258, [70; 76]);
  (64259, [70; 70; 73]);
  (64260, [70; 70; 76]);
  (64261, [83; 84]);
  (64262, [83; 84]);
  (64275, [1348; 1350]);
  (64276, [1348; 1333]);
  (64277, [1348; 1339]);
  (64278, [1358; 1350]);
  (64279, [1348; 1341])].

Definition title_table : list (Z * Z * Z * Z) := [
  (97, 122, 1, (-32));
  (181, 181, 1, 743);
  (224, 246, 1, (-32));
  (248, 254, 1, (-32));
  (255, 255, 1, 121);
  (257, 303, 2, (-1));
  (305, 305, 1, (-232));
  (307, 311, 2, (-1));
  (314, 328, 2, (-1));
  (331, 375, 2, (-1));
  (378, 382, 2, (-1));
  (383, 383, 1, (-300));
  (384, 384, 1, 195);
  (387, 389, 2, (-1));
  (392, 392, 1, (-1));
  (396, 396, 1, (-1));
  (402, 402, 1, (-1));
  (405, 405, 1, 97);
  (409, 409, 1, (-1));
  (410, 410, 1, 163);
  (414, 414, 1, 130);
  (417, 421, 2, (-1));
  (424, 424, 1, (-1));
  (429, 429, 1, (-1));
  (432, 432, 1, (-1));
  (436, 438, 2, (-1));
  (441, 441, 1, (-1));
  (445, 445, 1, (-1));
  (447, 447, 1, 56);
  (452, 452, 1, 1);
  (454, 454, 1, (-1));
  (455, 455, 1, 1);
  (457, 457, 1, (-1));
  (458, 458, 1, 1);
  (460, 476, 2, (-1));
  (477, 477, 1, (-79));
  (479, 495, 2, (-1));
  (497, 497, 1, 1);
  (499, 501, 2, (-1));
  (505, 543, 2, (-1));
  (547, 563, 2, (-1));
  (572, 572, 1, (-1));
  (575, 576, 1, 10815);
  (578, 578, 1, (-1));
  (583, 591, 2, (-1));
  (592, 592, 1, 10783);
  (593, 593, 1, 10780);
  (594, 594, 1, 10782);
  (595, 595, 1, (-210));
  (596, 596, 1, (-206));
  (598, 599, 1, (-205));
  (601, 601, 1, (-202));
  (603, 603, 1, (-203));
  (604, 604, 1, 42319);
  (608, 608, 1, (-205));
  (609, 609, 1, 42315);
  (611, 611, 1, (-207));
  (613, 613, 1, 42280);
  (614, 614, 1, 42308);
  (616, 616, 1, (-209));
  (617, 617, 1, (-211));
  (618, 618, 1, 42308);
  (619, 619, 1, 10743);
  (620, 620, 1, 42305);
  (623, 623, 1, (-211));
  (625, 625, 1, 10749);
  (626, 626, 1, (-213));
  (629, 629, 1, (-214));
  (637, 637, 1, 10727);
  (640, 640, 1, (-218));
  (642, 642, 1, 42307);
  (643, 643, 1, (-218));
  (647, 647, 1, 42282);
  (648, 648, 1, (-218));
  (649, 649, 1, (-69));
  (650, 651, 1, (-217));
  (652, 652, 1, (-71));
  (658, 658, 1, (-219));
  (669, 669, 1, 42261);
  (670, 670, 1, 42258);
  (837, 837, 1, 84);
  (881, 883, 2, (-1));
  (887, 887, 1, (-1));
  (891, 893, 1, 130);
  (940, 940, 1, (-38));
  (941, 943, 1, (-37));
  (945, 961, 1, (-32));
  (962, 962, 1, (-31));
  (963, 971, 1, (-32));
  (972, 972, 1, (-64));
  (973, 974, 1, (-63));
  (976, 976, 1, (-62));
  (977, 977, 1, (-57));
  (981, 981, 1, (-47));
  (982, 982, 1, (-54));
  (983, 983, 1, (-8));
  (985, 1007, 2, (-1));
  (1008, 1008, 1, (-86));
  (1009, 1009, 1, (-80));
  (1010, 1010, 1, 7);
  (1011, 1011, 1, (-116));
  (1013, 1013, 1, (-96));
  (1016, 1016, 1, (-1));
  (1019, 1019, 1, (-1));
  (1072, 1103, 1, (-32));
  (1104, 1119, 1, (-80));
  (1121, 1153, 2, (-1));
  (1163, 1215, 2, (-1));
  (1218, 1230, 2, (-1));
  (1231, 1231, 1, (-15));
  (1233, 1327, 2, (-1));
  (1377, 1414, 1, (-48));
  (5112, 5117, 1, (-8));
  (7296, 7296, 1, (-6254));
  (7297, 7297, 1, (-6253));
  (7298, 7298, 1, (-6244));
  (7299, 7300, 1, (-6242));
  (7301, 7301, 1, (-6243));
  (7302, 7302, 1, (-6236));
  (7303, 7303, 1, (-6181));
  (7304, 7304, 1, 35266);
  (7545, 7545, 1, 35332);
  (7549, 7549, 1, 3814);
  (7566, 7566, 1, 35384);
  (7681, 7829, 2, (-1));
  (7835, 7835, 1, (-59));
  (7841, 7935, 2, (-1));
  (7936, 7943, 1, 8);
  (7952, 7957, 1, 8);
  (7968, 7975, 1, 8);
  (7984, 7991, 1, 8);
  (8000, 8005, 1, 8);
  (8017, 8023, 2, 8);
  (8032, 8039, 1, 8);
  (8048, 8049, 1, 74);
  (8050, 8053, 1, 86);
  (8054, 8055, 1, 100);
  (8056, 8057, 1, 128);
  (8058, 8059, 1, 112);
  (8060, 8061, 1, 126);
  (8064, 8071, 1, 8);
  (8080, 8087, 1, 8);
  (8096, 8103, 1, 8);
  (8112, 8113, 1, 8);
  (8115, 8115, 1, 9);
  (8126, 8126, 1, (-7205));
  (8131, 8131, 1, 9);
  (8144, 8145, 1, 8);
  (8160, 8161, 1, 8);
  (8165, 8165, 1, 7);
  (8179, 8179, 1, 9);
  (8526, 8526, 1, (-28));
  (8560, 8575, 1, (-16));
  (8580, 8580, 1, (-1));
  (9424, 9449, 1, (-26));
  (11312, 11359, 1, (-48));
  (11361, 11361, 1, (-1));
  (11365, 11365, 1, (-10795));
  (11366, 11366, 1, (-10792));
  (11368, 11372, 2, (-1));
  (11379, 11379, 1, (-1));
  (11382, 11382, 1, (-1));
  (11393, 11491, 2, (-1));
  (11500, 11502, 2, (-1));
  (11507, 11507, 1, (-1));
  (11520, 11557, 1, (-7264));
  (11559, 11559, 1, (-7264));
  (11565, 11565, 1, (-7264));
  (42561, 42605, 2, (-1));
  (42625, 42651, 2, (-1));
  (42787, 42799, 2, (-1));
  (42803, 42863, 2, (-1));
  (42874, 42876, 2, (-1));
  (42879, 42887, 2, (-1));
  (42892, 42892, 1, (-1));
  (42897, 42899, 2, (-1));
  (42900, 42900, 1, 48);
  (42903, 42921, 2, (-1));
  (42933, 42947, 2, (-1));
  (42952, 42954, 2, (-1));
  (42961, 42961, 1, (-1));
  (42967, 42969, 2, (-1));
  (42998, 42998, 1, (-1));
  (43859, 43859, 1, (-928));
  (43888, 43967, 1, (-38864));
  (65345, 65370, 1, (-32));
  (66600, 66639, 1, (-40));
  (66776, 66811, 1, (-40));
  (66967, 66977, 1, (-39));
  (66979, 66993, 1, (-39));
  (66995, 67001, 1, (-39));
  (67003, 67004, 1, (-39));
  (68800, 68850, 1, (-64));
  (71872, 71903, 1, (-32));
  (93792, 93823, 1, (-32));
  (125218, 125251, 1, (-34))].

Definition title_special : list (Z * list Z) := [
  (223, [83; 115]);
  (329, [700; 78]);
  (496, [74; 780]);
  (912, [921; 776; 769]);
  (944, [933; 776; 769]);
  (1415, [1333; 1410]);
  (7830, [72; 817]);
  (7831, [84; 776]);
  (7832, [87; 778]);
  (7833, [89; 778]);
  (7834, [65; 702]);
  (8016, [933; 787]);
  (8018, [933; 787; 768]);
  (8020, [933; 787; 769]);
  (8022, [933; 787; 834]);
  (8114, [8122; 837]);
  (8116, [902; 837]);
  (8118, [913; 834]);
  (8119, [913; 834; 837]);
  (8130, [8138; 837]);
  (8132, [905; 837]);
  (8134, [919; 834]);
  (8135, [919; 834; 837]);
  (8146, [921; 776; 768]);
  (8147, [921; 776; 769]);
  (8150, [921; 834]);
  (8151, [921; 776; 834]);
  (8162, [933; 776; 768]);
  (8163, [933; 776; 769]);
  (8164, [929; 787]);
  (8166, [933; 834]);
  (8167, [933; 776; 834]);
  (8178, [8186; 837]);
  (8180, [911; 837]);
  (8182, [937; 834]);
  (8183, [937; 834; 837]);
  (64256, [70; 102]);
  (64257, [70; 105]);
  (64258, [70; 108]);
  (64259, [70; 102; 105]);
  (64260, [70; 102; 108]);
  (64261, [83; 116]);
  (64262, [83; 116]);
  (64275, [1348; 1398]);
  (64276, [1348; 1381]);
  (64277, [1348; 1387]);
  (64278, [1358; 1398]);
  (64279, [1348; 1389])].

Definition cased_ranges : list (Z * Z) := [
  (65, 90);
  (97, 122);
  (170, 170);
  (181, 181);
  (186, 186);
  (192, 214);
  (216, 246);
  (248, 442);
  (444, 447);
  (452, 659);
  (661, 696);
  (704, 705);
  (736, 740);
  (837, 837);
  (880, 883);
  (886, 887);
  (890, 893);
  (895, 895);
  (902, 902);
  (904, 906);
  (908, 908);
  (910, 929);
  (931, 1013);
  (1015, 1153);
  (1162, 1327);
  (1329, 1366);
  (1376, 1416);
  (4256, 4293);
  (4295, 4295);
  (4301, 4301);
  (4304, 4346);
  (4349, 4351);
  (5024, 5109);
  (5112, 5117);
  (7296, 7304);
  (7312, 7354);
  (7357, 7359);
  (7424, 7615);
  (7680, 7957);
  (7960, 7965);
  (7968, 8005);
  (8008, 8013);
  (8016, 8023);
  (8025, 8025);
  (8027, 8027);
  (8029, 8029);
  (8031, 8061);
  (8064, 8116);
  (8118, 8124);
  (8126, 8126);
  (8130, 8132);
  (8134, 8140);
  (8144, 8147);
  (8150, 8155);
  (8160, 8172);
  (8178, 8180);
  (8182, 8188);
  (8305, 8305);
  (8319, 8319);
  (8336, 8348);
  (8450, 8450);
  (8455, 8455);
  (8458, 8467);
  (8469, 8469);
  (8473, 8477);
  (8484, 8484);
  (8486, 8486);
  (8488, 8488);
  (8490, 8493);
  (8495, 8500);
  (8505, 8505);
  (8508, 8511);
  (8517, 8521);
  (8526, 8526);
  (8544, 8575);
  (8579, 8580);
  (9398, 9449);
  (11264, 11492);
  (11499, 11502);
  (11506, 11507);
  (11520, 11557);
  (11559, 11559);
  (11565, 11565);
  (42560, 42605);
  (42624, 42653);
  (42786, 42887);
  (42891, 42894);
  (42896, 42954);
  (42960, 42961);
  (42963, 42963);
  (42965, 42969);
  (42997, 42998);
  (43000, 43002);
  (43824, 43866);
  (43868, 43880);
  (43888, 43967);
  (64256, 64262);
  (64275, 64279);
  (65313, 65338);
  (65345, 65370);
  (66560, 66639);
  (66736, 66771);
  (66776, 66811);
  (66928, 66938);
  (66940, 66954);
  (66956, 66962);
  (66964, 66965);
  (66967, 66977);
  (66979, 66993);
  (66995, 67001);
  (67003, 67004);
  (67456, 67456);
  (67459, 67461);
  (67463, 67504);
  (67506, 67514);
  (68736, 68786);
  (68800, 68850);
  (71840, 71903);
  (93760, 93823);
  (119808, 119892);
  (119894, 119964);
  (119966, 119967);
  (119970, 119970);
  (119973, 119974);
  (119977, 119980);
  (119982, 119993);
  (119995, 119995);
  (119997, 120003);
  (120005, 120069);
  (120071, 120074);
  (120077, 120084);
  (120086, 120092);
  (120094, 120121);
  (120123, 120126);
  (120128, 120132);
  (120134, 120134);
  (120138, 120144);
  (120146, 120485);
  (120488, 120512);
  (120514, 120538);
  (120540, 120570);
  (120572, 120596);
  (120598, 120628);
  (120630, 120654);
  (120656, 120686);
  (120688, 120712);
  (120714, 120744);
  (120746, 120770);
  (120772, 120779);
  (122624, 122633);
  (122635, 122654);
  (125184, 125251);
  (127280, 127305);
  (127312, 127337);
  (127344, 127369)].

Definition case_ignorable_ranges : list (Z * Z) := [
  (39, 39);
  (46, 46);
  (58, 58);
  (94, 94);
  (96, 96);
  (168, 168);
  (173, 173);
  (175, 175);
  (180, 180);
  (183, 184);
  (688, 879);
  (884, 885);
  (890, 890);
  (900, 901);
  (903, 903);
  (1155, 1161);
  (1369, 1369);
  (1375, 1375);
  (1425, 1469);
  (1471, 1471);
  (1473, 1474);
  (1476, 1477);
  (1479, 1479);
  (1524, 1524);
  (1536, 1541);
  (1552, 1562);
  (1564, 1564);
  (1600, 1600);
  (1611, 1631);
  (1648, 1648);
  (1750, 1757);
  (1759, 1768);
  (1770, 1773);
  (1807, 1807);
  (1809, 1809);
  (1840, 1866);
  (1958, 1968);
  (2027, 2037);
  (2042, 2042);
  (2045, 2045);
  (2070, 2093);
  (2137, 2139);
  (2184, 2184);
  (2192, 2193);
  (2200, 2207);
  (2249, 2306);
  (2362, 2362);
  (2364, 2364);
  (2369, 2376);
  (2381, 2381);
  (2385, 2391);
  (2402, 2403);
  (2417, 2417);
  (2433, 2433);
  (2492, 2492);
  (2497, 2500);
  (2509, 2509);
  (2530, 2531);
  (2558, 2558);
  (2561, 2562);
  (2620, 2620);
  (2625, 2626);
  (2631, 2632);
  (2635, 2637);
  (2641, 2641);
  (2672, 2673);
  (2677, 2677);
  (2689, 2690);
  (2748, 2748);
  (2753, 2757);
  (2759, 2760);
  (2765, 2765);
  (2786, 2787);
  (2810, 2815);
  (2817, 2817);
  (2876, 2876);
  (2879, 2879);
  (2881, 2884);
  (2893, 2893);
  (2901, 2902);
  (2914, 2915);
  (2946, 2946);
  (3008, 3008);
  (3021, 3021);
  (3072, 3072);
  (3076, 3076);
  (3132, 3132);
  (3134, 3136);
  (3142, 3144);
  (3146, 3149);
  (3157, 3158);
  (3170, 3171);
  (3201, 3201);
  (3260, 3260);
  (3263, 3263);
  (3270, 3270);
  (3276, 3277);
  (3298, 3299);
  (3328, 3329);
  (3387, 3388);
  (3393, 3396);
  (3405, 3405);
  (3426, 3427);
  (3457, 3457);
  (3530, 3530);
  (3538, 3540);
  (3542, 3542);
  (3633, 3633);
  (3636, 3642);
  (3654, 3662);
  (3761, 3761);
  (3764, 3772);
  (3782, 3782);
  (3784, 3789);
  (3864, 3865);
  (3893, 3893);
  (3895, 3895);
  (3897, 3897);
  (3953, 3966);
  (3968, 3972);
  (3974, 3975);
  (3981, 3991);
  (3993, 4028);
  (4038, 4038);
  (4141, 4144);
  (4146, 4151);
  (4153, 4154);
  (4157, 4158);
  (4184, 4185);
  (4190, 4192);
  (4209, 4212);
  (4226, 4226);
  (4229, 4230);
  (4237, 4237);
  (4253, 4253);
  (4348, 4348);
  (4957, 4959);
  (5906, 5908);
  (5938, 5939);
  (5970, 5971);
  (6002, 6003);
  (6068, 6069);
  (6071, 6077);
  (6086, 6086);
  (6089, 6099);
  (6103, 6103);
  (6109, 6109);
  (6155, 6159);
  (6211, 6211);
  (6277, 6278);
  (6313, 6313);
  (6432, 6434);
  (6439, 6440);
  (6450, 6450);
  (6457, 6459);
  (6679, 6680);
  (6683, 6683);
  (6742, 6742);
  (6744, 6750);
  (6752, 6752);
  (6754, 6754);
  (6757, 6764);
  (6771, 6780);
  (6783, 6783);
  (6823, 6823);
  (6832, 6862);
  (6912, 6915);
  (6964, 6964);
  (6966, 6970);
  (6972, 6972);
  (6978, 6978);
  (7019, 7027);
  (7040, 7041);
  (7074, 7077);
  (7080, 7081);
  (7083, 7085);
  (7142, 7142);
  (7144, 7145);
  (7149, 7149);
  (7151, 7153);
  (7212, 7219);
  (7222, 7223);
  (7288, 7293);
  (7376, 7378);
  (7380, 7392);
  (7394, 7400);
  (7405, 7405);
  (7412, 7412);
  (7416, 7417);
  (7468, 7530);
  (7544, 7544);
  (7579, 7679);
  (8125, 8125);
  (8127, 8129);
  (8141, 8143);
  (8157, 8159);
  (8173, 8175);
  (8189, 8190);
  (8203, 8207);
  (8216, 8217);
  (8228, 8228);
  (8231, 8231);
  (8234, 8238);
  (8288, 8292);
  (8294, 8303);
  (8305, 8305);
  (8319, 8319);
  (8336, 8348);
  (8400, 8432);
  (11388, 11389);
  (11503, 11505);
  (11631, 11631);
  (11647, 11647);
  (11744, 11775);
  (11823, 11823);
  (12293, 12293);
  (12330, 12333);
  (12337, 12341);
  (12347, 12347);
  (12441, 12446);
  (12540, 12542);
  (40981, 40981);
  (42232, 42237);
  (42508, 42508);
  (42607, 42610);
  (42612, 42621);
  (42623, 42623);
  (42652, 42655);
  (42736, 42737);
  (42752, 42785);
  (42864, 42864);
  (42888, 42890);
  (42994, 42996);
  (43000, 43001);
  (43010, 43010);
  (43014, 43014);
  (43019, 43019);
  (43045, 43046);
  (43052, 43052);
  (43204, 43205);
  (43232, 43249);
  (43263, 43263);
  (43302, 43309);
  (43335, 43345);
  (43392, 43394);
  (43443, 43443);
  (43446, 43449);
  (43452, 43453);
  (43471, 43471);
  (43493, 43494);
  (43561, 43566);
  (43569, 43570);
  (43573, 43574);
  (43587, 43587);
  (43596, 43596);
  (43632, 43632);
  (43644, 43644);
  (43696, 43696);
  (43698, 43700);
  (43703, 43704);
  (43710, 43711);
  (43713, 43713);
  (43741, 43741);
  (43756, 43757);
  (43763, 43764);
  (43766, 43766);
  (43867, 43871);
  (43881, 43883);
  (44005, 44005);
  (44008, 44008);
  (44013, 44013);
  (64286, 64286);
  (64434, 64450);
  (65024, 65039);
  (65043, 65043);
  (65056, 65071);
  (65106, 65106);
  (65109, 65109);
  (65279, 65279);
  (65287, 65287);
  (65294, 65294);
  (65306, 65306);
  (65342, 65342);
  (65344, 65344);
  (65392, 65392);
  (65438, 65439);
  (65507, 65507);
  (65529, 65531);
  (66045, 66045);
  (66272, 66272);
  (66422, 66426);
  (67456, 67461);
  (67463, 67504);
  (67506, 67514);
  (68097, 68099);
  (68101, 68102);
  (68108, 68111);
  (68152, 68154);
  (68159, 68159);
  (68325, 68326);
  (68900, 68903);
  (69291, 69292);
  (69446, 69456);
  (69506, 69509);
  (69633, 69633);
  (69688, 69702);
  (69744, 69744);
  (69747, 69748);
  (69759, 69761);
  (69811, 69814);
  (69817, 69818);
  (69821, 69821);
  (69826, 69826);
  (69837, 69837);
  (69888, 69890);
  (69927, 69931);
  (69933, 69940);
  (70003, 70003);
  (70016, 70017);
  (70070, 70078);
  (70089, 70092);
  (70095, 70095);
  (70191, 70193);
  (70196, 70196);
  (70198, 70199);
  (70206, 70206);
  (70367, 70367);
  (70371, 70378);
  (70400, 70401);
  (70459, 70460);
  (70464, 70464);
  (70502, 70508);
  (70512, 70516);
  (70712, 70719);
  (70722, 70724);
  (70726, 70726);
  (70750, 70750);
  (70835, 70840);
  (70842, 70842);
  (70847, 70848);
  (70850, 70851);
  (71090, 71093);
  (71100, 71101);
  (71103, 71104);
  (71132, 71133);
  (71219, 71226);
  (71229, 71229);
  (71231, 71232);
  (71339, 71339);
  (71341, 71341);
  (71344, 71349);
  (71351, 71351);
  (71453, 71455);
  (71458, 71461);
  (71463, 71467);
  (71727, 71735);
  (71737, 71738);
  (71995, 71996);
  (71998, 71998);
  (72003, 72003);
  (72148, 72151);
  (72154, 72155);
  (72160, 72160);
  (72193, 72202);
  (72243, 72248);
  (72251, 72254);
  (72263, 72263);
  (72273, 72278);
  (72281, 72283);
  (72330, 72342);
  (72344, 72345);
  (72752, 72758);
  (72760, 72765);
  (72767, 72767);
  (72850, 72871);
  (72874, 72880);
  (72882, 72883);
  (72885, 72886);
  (73009, 73014);
  (73018, 73018);
  (73020, 73021);
  (73023, 73029);
  (73031, 73031);
  (73104, 73105);
  (73109, 73109);
  (73111, 73111);
  (73459, 73460);
  (78896, 78904);
  (92912, 92916);
  (92976, 92982);
  (92992, 92995);
  (94031, 94031);
  (94095, 94111);
  (94176, 94177);
  (94179, 94180);
  (110576, 110579);
  (110581, 110587);
  (110589, 110590);
  (113821, 113822);
  (113824, 113827);
  (118528, 118573);
  (118576, 118598);
  (119143, 119145);
  (119155, 119170);
  (119173, 119179);
  (119210, 119213);
  (119362, 119364);
  (121344, 121398);
  (121403, 121452);
  (121461, 121461);
  (121476, 121476);
  (121499, 121503);
  (121505, 121519);
  (122880, 122886);
  (122888, 122904);
  (122907, 122913);
  (122915, 122916);
  (122918, 122922);
  (123184, 123197);
  (123566, 123566);
  (123628, 123631);
  (125136, 125142);
  (125252, 125259);
  (127995, 127999);
  (917505, 917505);
  (917536, 917631);
  (917760, 917999)].

(** Lookups in the case tables: a run [(lo, hi, stride, delta)] maps every
    [c] of [lo, lo + stride, ..., hi] to [c + delta]; the special entries
    map a code point to several. *)
Fixpoint range_lookup (t : list (Z * Z * Z * Z)) (c : Z) : option Z :=
  match t with
  | [] => None
  | (lo, hi, st, d) :: rest =>
      if (lo <=? c) && (c <=? hi) && ((c - lo) mod st =? 0) then Some (c + d)
      else range_lookup rest c
  end.

Fixpoint special_lookup (t : list (Z * list Z)) (c : Z) : option (list Z) :=
  match t with
  | [] => None
  | (k, v) :: rest => if k =? c then Some v else special_lookup rest c
  end.

Definition full_map (sp : list (Z * list Z)) (t : list (Z * Z * Z * Z)) (c : Z) : list Z :=
  match special_lookup sp c with
  | Some l => l
  | None => match range_lookup t c with Some d => [d] | None => [c] end
  end.

Fixpoint in_ranges (t : list (Z * Z)) (c : Z) : bool :=
  match t with
  | [] => false
  | (lo, hi) :: rest => ((lo <=? c) && (c <=? hi)) || in_ranges rest c
  end.

Definition is_cased_cp (c : Z) : bool := in_ranges cased_ranges c.
Definition is_case_ignorable (c : Z) : bool := in_ranges case_ignorable_ranges c.

(** [handle_capital_sigma]: U+03A3 lowers to the final form U+03C2 when a
    cased character precedes it and none follows it, case-ignorable
    characters skipped on both sides. [before] is reversed. *)
Fixpoint sigma_before (before : list Z) : bool :=
  match before with
  | [] => false
  | c :: r => if is_case_ignorable c then sigma_before r else is_cased_cp c
  end.

Fixpoint sigma_after (after : list Z) : bool :=
  match after with
  | [] => true
  | c :: r => if is_case_ignorable c then sigma_after r else negb (is_cased_cp c)
  end.

(** [lower_ucs4]: the full lowercase mapping, with the final-sigma rule. *)
Definition lower_ucs4 (before : list Z) (c : Z) (after : list Z) : list Z :=
  if c =? 931 then [if sigma_before before && sigma_after after then 962 else 963]
  else full_map lower_special lower_table c.

Fixpoint lower_cps (before : list Z) (s : list Z) : list Z :=
  match s with
  | [] => []
  | c :: r => app (lower_ucs4 before c r) (lower_cps (c :: before) r)
  end.

Fixpoint title_cps (previous_is_cased : bool) (before : list Z) (s : list Z) : list Z :=
  match s with
  | [] => []
  | c :: r =>
      app (if previous_is_cased then lower_ucs4 before c r
           else full_map title_special title_table c)
          (title_cps (is_cased_cp c) (c :: before) r)
  end.

(** [str.lower()] *)
Definition py_lower (s : string) : string := utf8_encode (lower_cps [] (utf8_decode s)).

(** [str.upper()] *)
Definition py_upper (s : string) : string :=
  utf8_encode (flat_map (full_map upper_special upper_table) (utf8_decode s)).

(** [str.title()] *)
Definition py_title (s : string) : string := utf8_encode (title_cps false [] (utf8_decode s)).

(** [s[:n]]: the first [n] code points. *)
Definition py_prefix (n : nat) (s : string) : string := utf8_encode (firstn n (utf8_decode s)).

End PyStrings.

(** [str.replace(a, b)] for single characters *)
Fixpoint py_replace_char (a b : ascii) (s : string) : string :=
  match s with
  | EmptyString => EmptyString
  | String c r =>
      String (if Ascii.eqb c a then b else c) (py_replace_char a b r)
  end.

Fixpoint starts_with (p s : string) : bool :=
  match p, s with
  | EmptyString, _ => true
  | String _ _, EmptyString => false
  | String c p', String d s' => Ascii.eqb c d && starts_with p' s'
  end.

(** [p in s] *)
Fixpoint py_contains (p s : string) : bool :=
  starts_with p s ||
  match s with
  | EmptyString => false
  | String _ s' => py_contains p s'
  end.

(** [s.endswith(p)] *)
Definition py_endswith (s p : string) : bool :=
  Nat.leb (String.length p) (String.length s) &&
  String.eqb (substring (String.length s - String.length p) (String.length p) s) p.

(** Python truthiness of a [str] *)
Definition str_truthy (s : string) : bool := negb (String.eqb s EmptyString).

(** Decimal rendering of an [int], as [str()] / f-strings do. *)
Fixpoint digits_aux (fuel : nat) (n : N) (acc : string) : string :=
  match fuel with
  | O => acc
  | S f =>
      let d := N.modulo n 10 in
      let acc' := String (ascii_of_N (48 + d)) acc in
      if (n <? 10)%N then acc' else digits_aux f (N.div n 10) acc'
  end.

Definition str_of_N (n : N) : string := digits_aux (S (N.size_nat n)) n EmptyString.

Definition py_str_int (z : Z) : string :=
  match z with
  | Zneg _ => "-" ++ str_of_N (Z.to_N (Z.opp z))
  | _ => str_of_N (Z.to_N z)
  end.

(* ------------------------------------------------------------------ *)
(** ** Data model: [self.report_data] and the other attributes *)

(** One entry of the Gradio chat history ([{"role":..,"content":..}]):
    either a text content or a file content [{"path": file}]. *)
Inductive hist_entry :=
| HText (role : string) (content : string)
| HFile (role : string) (path : string).

(** One entry of [self.ollama_conversation]. *)
Record chat_msg := { cm_role : string; cm_content : string }.

Record ChildInfo := {
  name : string;
  age : Z;
  gender : string;
  location : string }.

Record AssessmentData := {
  parent_observations : string;
  ai_analysis : string;
  severity_score : Z;
  risk_indicators : list string;
  cultural_context : string }.

(** [{"path": file, "timestamp": ...}] *)
Record attachment := { at_path : string; at_timestamp : string }.

Record MediaAttachments := {
  drawings : list attachment;
  audio_recordings : list attachment;
  photos : list attachment }.

Record ReportData := {
  child_info : ChildInfo;
  assessment_data : AssessmentData;
  media_attachments : MediaAttachments;
  mobile_app_id : string;
  session_start : string;
  conversation_history : list hist_entry }.

(** JSON values as [response.json()] may deliver them for the [id] key. *)
Inductive jval :=
| JNull
| JBool (b : bool)
| JNum (z : Z)
| JStr (s : string).

Definition jval_truthy (v : jval) : bool :=
  match v with
  | JNull => false
  | JBool b => b
  | JNum z => negb (Z.eqb z 0)
  | JStr s => str_truthy s
  end.

(** [str(v)] of such a JSON value, as used in the success message. *)
Definition jval_str (v : jval) : string :=
  match v with
  | JNull => "None"
  | JBool true => "True"
  | JBool false => "False"
  | JNum z => py_str_int z
  | JStr s => s
  end.

(** [recommendations] of a reply row: a mapping or a flat value. *)
Inductive recommendations :=
| RecDict (items : list (string * string))
| RecFlat (s : string).

(** First row of [SELECT * FROM responses WHERE report_id = ...]. *)
Record row := {
  response_date : string;
  psychologist_id : string;
  urgency_level : string;
  psychologist_notes : string;
  r_recommendations : recommendations }.

Record App := {
  report_data : ReportData;
  is_onboarded : bool;
  submitted_report_id : jval;          (* [None] is [JNull] *)
  polling_active : bool;
  ollama_conversation : list chat_msg;
  supabase : bool;                     (* client configured *)
  specialist_response : option row;    (* [hasattr(self, 'specialist_response')] *)
  poll_threads : list nat              (* running [_poll_for_response] threads, by [poll_count] *)
}.

(* ------------------------------------------------------------------ *)
(** ** Record updates *)

Definition with_report (s : App) (r : ReportData) : App :=
  {| report_data := r; is_onboarded := is_onboarded s;
     submitted_report_id := submitted_report_id s;
     polling_active := polling_active s;
     ollama_conversation := ollama_conversation s;
     supabase := supabase s; specialist_response := specialist_response s;
     poll_threads := poll_threads s |}.

Definition with_assessment (r : ReportData) (a : AssessmentData) : ReportData :=
  {| child_info := child_info r; assessment_data := a;
     media_attachments := media_attachments r; mobile_app_id := mobile_app_id r;
     session_start := session_start r;
     conversation_history := conversation_history r |}.

Definition with_child (r : ReportData) (c : ChildInfo) : ReportData :=
  {| child_info := c; assessment_data := assessment_data r;
     media_attachments := media_attachments r; mobile_app_id := mobile_app_id r;
     session_start := session_start r;
     conversation_history := conversation_history r |}.

Definition with_media (r : ReportData) (m : MediaAttachments) : ReportData :=
  {| child_info := child_info r; assessment_data := assessment_data r;
     media_attachments := m; mobile_app_id := mobile_app_id r;
     session_start := session_start r;
     conversation_history := conversation_history r |}.

Definition with_history (r : ReportData) (h : list hist_entry) : ReportData :=
  {| child_info := child_info r; assessment_data := assessment_data r;
     media_attachments := media_attachments r; mobile_app_id := mobile_app_id r;
     session_start := session_start r; conversation_history := h |}.

Definition set_parent_observations (a : AssessmentData) (v : string) :=
  {| parent_observations := v; ai_analysis := ai_analysis a;
     severity_score := severity_score a; risk_indicators := risk_indicators a;
     cultural_context := cultural_context a |}.

Definition set_ai_analysis (a : AssessmentData) (v : string) :=
  {| parent_observations := parent_observations a; ai_analysis := v;
     severity_score := severity_score a; risk_indicators := risk_indicators a;
     cultural_context := cultural_context a |}.

Definition set_severity_score (a : AssessmentData) (v : Z) :=
  {| parent_observations := parent_observations a; ai_analysis := ai_analysis a;
     severity_score := v; risk_indicators := risk_indicators a;
     cultural_context := cultural_context a |}.

Definition set_risk_indicators (a : AssessmentData) (v : list string) :=
  {| parent_observations := parent_observations a; ai_analysis := ai_analysis a;
     severity_score := severity_score a; risk_indicators := v;
     cultural_context := cultural_context a |}.

Definition set_cultural_context (a : AssessmentData) (v : string) :=
  {| parent_observations := parent_observations a; ai_analysis := ai_analysis a;
     severity_score := severity_score a; risk_indicators := risk_indicators a;
     cultural_context := v |}.

(** [self.report_data["assessment_data"][k] = v] *)
Definition update_assessment (s : App) (f : AssessmentData -> AssessmentData) : App :=
  with_report s (with_assessment (report_data s) (f (assessment_data (report_data s)))).

(* ------------------------------------------------------------------ *)
(** ** [__init__] *)

Definition empty_media : MediaAttachments :=
  {| drawings := []; audio_recordings := []; photos := [] |}.

(** [uuid] is [str(uuid.uuid4())], [start] is [datetime.now().isoformat()],
    [configured] says whether both lookup-store credentials were found. *)
Definition init_app (uuid start : string) (configured : bool) : App :=
  {| report_data :=
       {| child_info := {| name := EmptyString; age := 0; gender := EmptyString; location := EmptyString |};
          assessment_data :=
            {| parent_observations := EmptyString; ai_analysis := EmptyString;
               severity_score := 0; risk_indicators := [];
               cultural_context := EmptyString |};
          media_attachments := empty_media;
          mobile_app_id := uuid;
          session_start := start;
          conversation_history := [] |};
     is_onboarded := false;
     submitted_report_id := JNull;
     polling_active := false;
     ollama_conversation := [];
     supabase := configured;
     specialist_response := None;
     poll_threads := [] |}.

(* ------------------------------------------------------------------ *)
(** ** [generate_cultural_context] and [complete_onboarding] *)

Definition any_in (keywords : list string) (s : string) : bool :=
  existsb (fun k => py_contains k s) keywords.

Definition generate_cultural_context (loc : string) : string :=
  let location_lower := py_lower loc in
  if any_in ["gaza"; "palestine"; "west bank"] location_lower then
    "Assessment conducted considering ongoing conflict exposure and displacement trauma"
  else if any_in ["ukraine"; "kyiv"; "kharkiv"; "mariupol"] location_lower then
    "Assessment considering war-related trauma and displacement from conflict zones"
  else if any_in ["syria"; "lebanon"; "jordan"] location_lower then
    "Assessment considering refugee experience and cultural adaptation challenges"
  else
    "Assessment conducted with consideration for local cultural context in " ++ loc.

(** [int(x)] of a (finite) number: truncation toward zero. *)
Definition py_int (q : Q) : Z := Z.quot (Qnum q) (Zpos (Qden q)).

(** Truthiness of a number. *)
Definition num_truthy (q : Q) : bool := negb (Qeq_bool q 0).

Definition complete_onboarding (s : App)
    (child_name : string) (child_age : Q) (child_gender child_location : string)
    : (bool * string) * App :=
  if negb (str_truthy child_name && num_truthy child_age &&
           str_truthy child_gender && str_truthy child_location) then
    ((false, "Please fill in all required information about your child."), s)
  else
    let r1 := with_child (report_data s)
                {| name := child_name; age := py_int child_age;
                   gender := child_gender; location := child_location |} in
    let s1 := {| report_data := r1; is_onboarded := true;
                 submitted_report_id := submitted_report_id s;
                 polling_active := polling_active s;
                 ollama_conversation := ollama_conversation s;
                 supabase := supabase s;
                 specialist_response := specialist_response s;
                 poll_threads := poll_threads s |} in
    let s2 := update_assessment s1 (fun a =>
                set_cultural_context a (generate_cultural_context child_location)) in
    ((true, "Welcome! I'm ready to help you with " ++ child_name ++ "'s assessment."), s2).

(* ------------------------------------------------------------------ *)
(** ** [classify_file_type] and [add_message] *)

Definition classify_file_type (file_path : string) : string :=
  let l := py_lower file_path in
  if existsb (py_endswith l) [".jpg"; ".jpeg"; ".png"; ".gif"; ".bmp"]
  then "image" else "other".

(** The multimodal textbox value: [message.get("files")] and
    [message.get("text")] (a missing text is the empty string). *)
Record mm_message := { m_files : list string; m_text : string }.

(** [self.report_data["media_attachments"][attachment_type].append(...)] *)
Definition store_image (s : App) (file now : string) : App :=
  let m := media_attachments (report_data s) in
  let e := {| at_path := file; at_timestamp := now |} in
  let m' := if py_contains "draw" (py_lower file)
            then {| drawings := app (drawings m) [e];
                    audio_recordings := audio_recordings m; photos := photos m |}
            else {| drawings := drawings m;
                    audio_recordings := audio_recordings m; photos := app (photos m) [e] |} in
  with_report s (with_media (report_data s) m').

(** [datetime.now().isoformat()]: [now n] is what the [n]-th call made
    during one handler call returns. *)
Definition clock := nat -> string.

(** The [for file in message["files"]] loop; [k] counts the
    [datetime.now()] calls made so far (one per image file). *)
Fixpoint add_files (files : list string) (now : clock) (k : nat)
    (history : list hist_entry) (s : App) : list hist_entry * App :=
  match files with
  | [] => (history, s)
  | file :: rest =>
      let history1 := app history [HFile "user" file] in
      if String.eqb (classify_file_type file) "image"
      then add_files rest now (S k) history1 (store_image s file (now k))
      else add_files rest now k history1 s
  end.

Definition with_ollama (s : App) (c : list chat_msg) : App :=
  {| report_data := report_data s; is_onboarded := is_onboarded s;
     submitted_report_id := submitted_report_id s;
     polling_active := polling_active s;
     ollama_conversation := c;
     supabase := supabase s; specialist_response := specialist_response s;
     poll_threads := poll_threads s |}.

(** [add_message(history, message)]; [now] gives the
    [datetime.now().isoformat()] readings of the call.
    Returns the new chat history and the new state (the textbox widget
    returned beside it is UI only). *)
Definition add_message (s : App) (history : list hist_entry) (message : mm_message)
    (now : clock) : list hist_entry * App :=
  if negb (is_onboarded s) then (history, s)
  else
    let '(history1, s1) := add_files (m_files message) now 0 history s in
    let '(history2, s2) :=
      if str_truthy (m_text message) then
        let t := m_text message in
        let h := app history1 [HText "user" t] in
        let sa := with_ollama s1 (app (ollama_conversation s1)
                                  [{| cm_role := "user"; cm_content := t |}]) in
        let current_obs := parent_observations (assessment_data (report_data sa)) in
        (h, update_assessment sa (fun a => set_parent_observations a
              (if str_truthy current_obs then current_obs ++ " " ++ t else t)))
      else (history1, s1) in
    (history2, with_report s2 (with_history (report_data s2) history2)).

(* ------------------------------------------------------------------ *)
(** ** [clear_conversation] (the "New Conversation" button handler) *)

Definition clear_conversation (s : App) : list hist_entry * App :=
  let r := report_data s in
  let r1 := with_history r [] in
  let r2 := with_assessment r1
              (set_parent_observations (assessment_data r1) EmptyString) in
  let r3 := with_assessment r2 (set_ai_analysis (assessment_data r2) EmptyString) in
  let r4 := with_media r3 empty_media in
  ([], with_report s r4).

(* ------------------------------------------------------------------ *)
(** ** [generate_comprehensive_report] *)

Definition newline : string := String (ascii_of_nat 10) EmptyString.

Definition str_of_nat (n : nat) : string := str_of_N (N.of_nat n).

(** The pydantic model [RiskAssessment]. *)
Record RiskAssessment := {
  ra_parent_observations : string;
  ra_ai_analysis : string;
  ra_severity_score : Z;
  ra_risk_indicators : list string;
  ra_cultural_context : string }.

(** The structured-output model call
    [chat(model=..., messages=..., format=..., options=...)] followed by
    [RiskAssessment.model_validate_json(...)]: [None] when either raises
    (transport error, or content that does not parse into the record). *)
Definition structured_llm := list chat_msg -> option RiskAssessment.

(** The three renderings of [datetime.now()] that the report uses. *)
Record now_strs := { now_long : string; now_date : string; now_iso : string }.

Definition assessment_prompt (c : ChildInfo) : string :=
  "Based on our conversation about "
  ++ name c
  ++ ", a "
  ++ py_str_int (age c)
  ++ "-year-old "
  ++ gender c
  ++ " from "
  ++ location c
  ++ ", generate a comprehensive trauma risk assessment report. 

Include:
- Parent observations summary from our conversation
- AI analysis of trauma indicators
- Severity score (1-10 scale)
- List of risk indicators identified
- Cultural context considering the child's location and circumstances

Consider the conversation history and any cultural factors relevant to "
  ++ location c
  ++ ".".

(** The f-string returned after the [try]/[except] block. *)
Definition render_report (s : App) (now : now_strs) : string :=
  let r := report_data s in
  let c := child_info r in
  let a := assessment_data r in
  let m := media_attachments r in
  let severity := severity_score a in
  let risk_indicators := risk_indicators a in
  "# 🔍 COMPREHENSIVE TRAUMA ASSESSMENT REPORT

**Generated:** "
  ++ now_long now
  ++ "  
**Assessment ID:** "
  ++ py_prefix 8 (mobile_app_id r)
  ++ "  
**Confidentiality Level:** Protected Health Information
**Platform:** Child Trauma Assessment AI

---

## 👤 CHILD INFORMATION

**Name:** "
  ++ name c
  ++ "  
**Age:** "
  ++ py_str_int (age c)
  ++ " years old  
**Gender:** "
  ++ py_title (gender c)
  ++ "  
**Location:** "
  ++ location c
  ++ "  
**Assessment Date:** "
  ++ now_date now
  ++ "

---

## 👥 PARENT OBSERVATIONS

"
  ++ parent_observations a
  ++ "

**Session Details:**
- **Duration:** "
  ++ str_of_nat (List.length (conversation_history r))
  ++ " message exchanges
- **Media Provided:** "
  ++ str_of_nat (List.length (drawings m))
  ++ " drawings, "
  ++ str_of_nat (List.length (photos m))
  ++ " photographs

---

## 🧠 AI ANALYSIS

"
  ++ ai_analysis a
  ++ "

**Behavioral Patterns Identified:**
"
  ++ String.concat newline (map (fun indicator => "• " ++ indicator) risk_indicators)
  ++ "

---

## ⚠️ SEVERITY ASSESSMENT

**Severity Score:** "
  ++ py_str_int severity
  ++ "/10  
**Risk Level:** "
  ++ (if Z.ltb severity 7 then "🟡 Moderate Risk" else "🔴 High Risk - Urgent Intervention Recommended")
  ++ "  
**Clinical Priority:** "
  ++ (if Z.ltb severity 7 then "Standard referral appropriate" else "Expedited professional evaluation needed")
  ++ "

---

## 🌍 CULTURAL CONTEXT

"
  ++ cultural_context a
  ++ "

This assessment considers the cultural and environmental factors specific to "
  ++ location c
  ++ ", including region-specific trauma expressions, family dynamics, and community support systems.

---

## 📋 CLINICAL RECOMMENDATIONS

**Immediate Actions:**
1. Schedule comprehensive evaluation with licensed child trauma specialist
2. Ensure stable, predictable environment for "
  ++ name c
  ++ "
3. Implement safety planning and crisis contact protocols

**Therapeutic Interventions:**
1. Begin trauma-focused cognitive behavioral therapy (TF-CBT)
2. Consider family therapy to strengthen support systems
3. Monitor sleep, appetite, and behavioral patterns daily

**Cultural Considerations:**
1. Engage culturally competent mental health services
2. Incorporate traditional coping mechanisms where appropriate
3. Consider community-based support resources

**Follow-up:**
- Initial professional evaluation within 1-2 weeks
- Regular monitoring and assessment as recommended by treating clinician

---

## ⚖️ IMPORTANT DISCLAIMERS

- **Preliminary Screening Tool:** This AI-generated assessment is for screening purposes only and does NOT constitute a clinical diagnosis
- **Professional Validation Required:** All findings must be validated by licensed mental health professionals
- **Emergency Protocol:** For immediate safety concerns, contact emergency services immediately
- **Clinical Judgment:** AI analysis should supplement, not replace, professional clinical assessment

**Report Generated:** "
  ++ now_iso now
  ++ "  
**Next Review Recommended:** "
  ++ now_date now
  ++ " (2 weeks)
".

Definition fallback_indicators : list string :=
  ["sleep disturbances"; "behavioral changes"; "anxiety"].

(** [messages=[{'role': 'user', 'content': assessment_prompt}]] *)
Definition report_messages (s : App) : list chat_msg :=
  [{| cm_role := "user"; cm_content := assessment_prompt (child_info (report_data s)) |}].

(** [generate_comprehensive_report()]: the returned string and the new state
    (the progress callback only reports to the UI). *)
Definition generate_comprehensive_report (s : App) (llm : structured_llm)
    (now : now_strs) : string * App :=
  if negb (is_onboarded s) then
    ("Please complete the initial assessment form first.", s)
  else match ollama_conversation s with
  | [] => ("Please have a conversation first before generating a report.", s)
  | _ :: _ =>
      let s1 :=
        match llm (report_messages s) with
        | Some assessment =>
            update_assessment s (fun _ =>
              {| parent_observations := ra_parent_observations assessment;
                 ai_analysis := ra_ai_analysis assessment;
                 severity_score := ra_severity_score assessment;
                 risk_indicators := ra_risk_indicators assessment;
                 cultural_context := ra_cultural_context assessment |})
        | None =>
            update_assessment s (fun a =>
              set_risk_indicators (set_severity_score a 6) fallback_indicators)
        end in
      (render_report s1 now, s1)
  end.

(* ------------------------------------------------------------------ *)
(** ** [push_report_to_care_bridge] *)

(** What [response.json()] yields on a 201 response: a JSON object, with
    the value of its [id] key when present; a JSON value that is not an
    object ([result.get] raises [AttributeError]); or a body that does not
    decode ([requests]' [JSONDecodeError], a [RequestException]). *)
Inductive json_body :=
| BodyObject (id : option jval)
| BodyNotObject (err : string)
| BodyInvalid (err : string).

(** The outcome of the single [requests.post(url, json=..., timeout=10)]. *)
Inductive http_outcome :=
| PostConnectionError
| PostTimeout
| PostRequestException (err : string)
| PostOtherException (err : string)
| PostResponse (status_code : Z) (text : string) (body : json_body).

(** [start_response_polling()]: the new thread starts at [poll_count = 0]. *)
Definition start_response_polling (s : App) : App :=
  if negb (supabase s && jval_truthy (submitted_report_id s)) then s
  else if polling_active s then s
  else
    {| report_data := report_data s; is_onboarded := is_onboarded s;
       submitted_report_id := submitted_report_id s;
       polling_active := true;
       ollama_conversation := ollama_conversation s;
       supabase := supabase s; specialist_response := specialist_response s;
       poll_threads := app (poll_threads s) [0] |}.

Definition set_report_id (s : App) (v : jval) : App :=
  {| report_data := report_data s; is_onboarded := is_onboarded s;
     submitted_report_id := v;
     polling_active := polling_active s;
     ollama_conversation := ollama_conversation s;
     supabase := supabase s; specialist_response := specialist_response s;
     poll_threads := poll_threads s |}.

(** The outcome of a push: the returned [(success, message)] pair, the new
    state and the number of HTTP requests issued. *)
Record push_result := {
  pr_ok : bool; pr_message : string; pr_state : App; pr_requests : nat }.

Definition push_failure (s : App) (msg : string) (sent : nat) : push_result :=
  {| pr_ok := false; pr_message := msg; pr_state := s; pr_requests := sent |}.

(** [push_report_to_care_bridge()]; [post] is the outcome of the POST,
    consulted only if the request is issued. *)
Definition push_report_to_care_bridge (s : App) (post : http_outcome) : push_result :=
  if negb (is_onboarded s) then
    push_failure s "Please complete the initial assessment form first." 0
  else match conversation_history (report_data s) with
  | [] => push_failure s "Please have a conversation first before pushing a report." 0
  | _ :: _ =>
      match post with
      | PostResponse status txt body =>
          if Z.eqb status 201 then
            match body with
            | BodyObject id =>
                let report_id := match id with Some v => v | None => JStr "Unknown" end in
                let s1 := set_report_id s report_id in
                let s2 := start_response_polling s1 in
                {| pr_ok := true;
                   pr_message := "✅ Report successfully pushed to Care Bridge Platform!" ++ newline
                     ++ "📋 Report ID: " ++ jval_str report_id ++ newline
                     ++ "🔄 Now monitoring for specialist response...";
                   pr_state := s2; pr_requests := 1 |}
            | BodyInvalid e => push_failure s ("❌ Network error: " ++ e) 1
            | BodyNotObject e => push_failure s ("❌ Unexpected error: " ++ e) 1
            end
          else push_failure s ("❌ API Error: " ++ py_str_int status ++ " - " ++ txt) 1
      | PostConnectionError =>
          push_failure s "❌ Could not connect to Care Bridge Platform. Please check if the platform is running." 1
      | PostTimeout => push_failure s "❌ Request timed out. Please try again." 1
      | PostRequestException e => push_failure s ("❌ Network error: " ++ e) 1
      | PostOtherException e => push_failure s ("❌ Unexpected error: " ++ e) 1
      end
  end.

(* ------------------------------------------------------------------ *)
(** ** [get_specialist_response] *)

Definition urgency_color : list (string * string) :=
  [("low", "🟢"); ("medium", "🟡"); ("high", "🟠"); ("critical", "🔴")].

(** [dict.get(k, default)] on an association list *)
Fixpoint assoc_get (k : string) (l : list (string * string)) (default : string) : string :=
  match l with
  | [] => default
  | (k', v) :: rest => if String.eqb k k' then v else assoc_get k rest default
  end.

Definition format_recommendations (rec : recommendations) : string :=
  match rec with
  | RecDict items =>
      String.concat EmptyString (map (fun '(key, value) =>
        "**" ++ py_title (py_replace_char "_"%char " "%char key) ++ ":** " ++ value
        ++ newline ++ newline) items)
  | RecFlat v => v
  end.

Definition format_specialist_response (response : row) : string :=
  let urgency_emoji := assoc_get (urgency_level response) urgency_color "⚪" in
  "
# 👨‍⚕️ SPECIALIST RESPONSE RECEIVED

**Response Date:** "
  ++ py_replace_char "T"%char " "%char (py_prefix 19 (response_date response))
  ++ "  
**Specialist ID:** "
  ++ psychologist_id response
  ++ "  
**Urgency Level:** "
  ++ urgency_emoji
  ++ " "
  ++ py_upper (urgency_level response)
  ++ "

---

## 📝 PSYCHOLOGIST NOTES

"
  ++ psychologist_notes response
  ++ "

---

## 💡 RECOMMENDATIONS

"
  ++ format_recommendations (r_recommendations response).

Definition get_specialist_response (s : App) : bool * string :=
  match specialist_response s with
  | Some response => (true, format_specialist_response response)
  | None => (false, "No specialist response available yet. Still monitoring...")
  end.

(* ------------------------------------------------------------------ *)
(** ** [_poll_for_response] *)

Definition max_polls : nat := 120.

(** What one execution of the lookup query
    [self.supabase.table("responses").select("*").eq(...).execute()]
    does: return rows ([response.data]), or raise. *)
Inductive query_result :=
| QRows (data : list row)
| QError (err : string).

(** What the loop does observably: a lookup query, a [time.sleep]. *)
Inductive poll_event :=
| Query (report_id : jval)
| Sleep (seconds : nat).

Definition set_polling_active (s : App) (b : bool) : App :=
  {| report_data := report_data s; is_onboarded := is_onboarded s;
     submitted_report_id := submitted_report_id s;
     polling_active := b;
     ollama_conversation := ollama_conversation s;
     supabase := supabase s; specialist_response := specialist_response s;
     poll_threads := poll_threads s |}.

Definition set_specialist_response (s : App) (r : row) : App :=
  {| report_data := report_data s; is_onboarded := is_onboarded s;
     submitted_report_id := submitted_report_id s;
     polling_active := polling_active s;
     ollama_conversation := ollama_conversation s;
     supabase := supabase s; specialist_response := Some r;
     poll_threads := poll_threads s |}.

(** One turn of the loop: the [while] test, then the body. *)
Inductive poll_turn :=
| Continue (s : App) (poll_count : nat) (ev : list poll_event)
| Exit (s : App) (ev : list poll_event).

(** Code after the [while] loop. *)
Definition after_loop (s : App) (poll_count : nat) : App :=
  if Nat.leb max_polls poll_count then set_polling_active s false else s.

Definition poll_iteration (s : App) (poll_count : nat) (qr : query_result) : poll_turn :=
  if polling_active s && Nat.ltb poll_count max_polls then
    let q := Query (submitted_report_id s) in
    match qr with
    | QRows (specialist_response :: _) =>
        (* [self.get_specialist_response()] is called for its result only *)
        let s1 := set_specialist_response s specialist_response in
        let _ := get_specialist_response s1 in
        Exit (set_polling_active s1 false) [q]       (* [break] *)
    | QRows [] => Continue s (S poll_count) [q; Sleep 5]
    | QError _ => Continue s (S poll_count) [q; Sleep 5]   (* [except Exception] *)
    end
  else Exit (after_loop s poll_count) [].

(** The loop run by one thread, alone on the state: [queries n] is what
    the [n]-th query execution does. [None] only if [fuel] runs out. *)
Fixpoint poll_loop (fuel : nat) (s : App) (poll_count : nat)
    (queries : nat -> query_result) : option (App * list poll_event) :=
  match fuel with
  | O => None
  | S f =>
      match poll_iteration s poll_count (queries poll_count) with
      | Exit s' ev => Some (s', ev)
      | Continue s' c' ev =>
          match poll_loop f s' c' queries with
          | Some (s'', ev') => Some (s'', app ev ev')
          | None => None
          end
      end
  end.

Definition _poll_for_response (s : App) (queries : nat -> query_result)
    : option (App * list poll_event) :=
  poll_loop (S (S max_polls)) s 0 queries.

(* ------------------------------------------------------------------ *)
(** ** [bot_response] *)

(** The [history] list [bot_response] is called with: either the very
    list object [self.report_data["conversation_history"]] refers to (as
    [add_message] returns it), or a list of its own. *)
Inductive history_arg :=
| SharedHistory
| OwnHistory (h : list hist_entry).

Definition history_value (s : App) (history : history_arg) : list hist_entry :=
  match history with
  | SharedHistory => conversation_history (report_data s)
  | OwnHistory h => h
  end.

(** [bot_response(history)]: [response_text] is what the model call (or its
    fallback text) produced. The assistant entry appended to [history] (and
    filled character by character up to [response_text]) lands in the
    stored transcript exactly when [history] is that list. *)
Definition bot_response (s : App) (history : history_arg)
    (response_text : string) : App :=
  match history_value s history with
  | [] => s
  | _ :: _ =>
      if negb (is_onboarded s) then s
      else
        let s1 := with_ollama s (app (ollama_conversation s)
                      [{| cm_role := "assistant"; cm_content := response_text |}]) in
        match history with
        | SharedHistory =>
            with_report s1 (with_history (report_data s1)
              (app (history_value s history) [HText "assistant" response_text]))
        | OwnHistory _ => s1
        end
  end.

(** Which model call [bot_response] makes: the [for msg in
    reversed(history)] scan stops at the latest user entry; a file entry
    ([{"path": ...}]) with a truthy path selects the image request,
    anything else the text request on [self.ollama_conversation]. *)
Inductive bot_call :=
| ImageCall (image_path : string)
| TextCall.

Fixpoint last_user_image (rev_history : list hist_entry) : option string :=
  match rev_history with
  | [] => None
  | HText role _ :: rest => if String.eqb role "user" then None else last_user_image rest
  | HFile role p :: rest => if String.eqb role "user" then Some p else last_user_image rest
  end.

Definition bot_request (history : list hist_entry) : bot_call :=
  match last_user_image (rev history) with
  | Some image_path => if str_truthy image_path then ImageCall image_path else TextCall
  | None => TextCall
  end.

(* ------------------------------------------------------------------ *)
(** ** The session as a transition system

    Every handler of the UI may fire, in any order; each running polling
    thread may perform one loop turn between them. Pushes are restricted
    to the outcomes [allowed] accepts ([fun _ => true]: any outcome). *)

Definition replace_at {A} (i : nat) (x : A) (l : list A) : list A :=
  app (firstn i l) (x :: skipn (S i) l).

Definition remove_at {A} (i : nat) (l : list A) : list A :=
  app (firstn i l) (skipn (S i) l).

Definition set_threads (s : App) (t : list nat) : App :=
  {| report_data := report_data s; is_onboarded := is_onboarded s;
     submitted_report_id := submitted_report_id s;
     polling_active := polling_active s;
     ollama_conversation := ollama_conversation s;
     supabase := supabase s; specialist_response := specialist_response s;
     poll_threads := t |}.

(** One loop turn of the [i]-th running polling thread. *)
Definition thread_turn (s : App) (i c : nat) (qr : query_result) : App :=
  match poll_iteration s c qr with
  | Continue s' c' _ => set_threads s' (replace_at i c' (poll_threads s'))
  | Exit s' _ => set_threads s' (remove_at i (poll_threads s'))
  end.

Inductive step (allowed : http_outcome -> bool) : App -> App -> Prop :=
| step_onboard s n a g l :
    step allowed s (snd (complete_onboarding s n a g l))
| step_add s h m now :
    step allowed s (snd (add_message s h m now))
| step_bot s h t :
    step allowed s (bot_response s h t)
| step_generate s llm now :
    step allowed s (snd (generate_comprehensive_report s llm now))
| step_push s post :
    allowed post = true ->
    step allowed s (pr_state (push_report_to_care_bridge s post))
| step_clear s :
    step allowed s (snd (clear_conversation s))
| step_poll s i c qr :
    nth_error (poll_threads s) i = Some c ->
    step allowed s (thread_turn s i c qr).

Inductive reachable (allowed : http_outcome -> bool) : App -> Prop :=
| reach_init uuid start configured :
    reachable allowed (init_app uuid start configured)
| reach_step s s' :
    reachable allowed s -> step allowed s s' -> reachable allowed s'.

(* ------------------------------------------------------------------ *)
(** ** UI handlers [check_for_response] and [save_report_with_data] *)

Definition dq : string := String (ascii_of_nat 34) EmptyString.

(** [f'<div class="{cls}">{msg}</div>'] *)
Definition div (cls msg : string) : string :=
  "<div class=" ++ dq ++ cls ++ dq ++ ">" ++ msg ++ "</div>".

(** [check_for_response()]: the reply panel content and the status line. *)
Definition check_for_response (s : App) : string * string :=
  let '(has_response, response_content) := get_specialist_response s in
  if has_response then
    (response_content, div "status-success" "✅ Specialist response received!")
  else if polling_active s then
    (EmptyString, div "status-info" "🔄 Still monitoring for specialist response...")
  else if jval_truthy (submitted_report_id s) then
    (EmptyString, div "status-warning" "⏸️ Monitoring stopped. No response received within time limit.")
  else
    (EmptyString, div "status-warning" "ℹ️ Submit a report first to check for responses.").



(* ------------------------------------------------------------------ *)
(** ** Predicates and concrete sessions used by the properties *)

(** The lookup query of a turn returned no row (empty data or an error). *)
Definition no_reply (qr : query_result) : Prop :=
  match qr with
  | QRows (_ :: _) => False
  | _ => True
  end.

Fixpoint count_queries (ev : list poll_event) : nat :=
  match ev with
  | [] => 0
  | Query _ :: r => S (count_queries r)
  | Sleep _ :: r => count_queries r
  end.

(** A session that has pushed a report and started polling. *)
Definition polling_session : App :=
  set_threads
    (set_polling_active (set_report_id (init_app "6f1d2c3b-0000" "2026-10-14T10:00:00" true)
                                       (JStr "r-42")) true) [0].

Definition poll_view (s : App) : bool * bool * list nat * jval * option row :=
  (polling_active s, supabase s, poll_threads s, submitted_report_id s,
   specialist_response s).

(** The flag is set exactly while one polling thread runs, and only with
    the lookup-store client configured. *)
Definition poll_inv (s : App) : Prop :=
  (polling_active s = true -> supabase s = true /\ exists c, poll_threads s = [c]) /\
  (polling_active s = false -> poll_threads s = []).

(** Pushes whose 201 body does not carry a falsy [id]. *)
Definition truthy_id_outcome (post : http_outcome) : bool :=
  match post with
  | PostResponse st _ (BodyObject (Some v)) => negb (Z.eqb st 201) || jval_truthy v
  | _ => true
  end.

Definition id_inv (s : App) : Prop :=
  polling_active s = true -> jval_truthy (submitted_report_id s) = true.

(** A clock reading the same time on every call, and one whose [n]-th
    reading is [n] seconds past 10:02. *)
Definition at_time (t : string) : clock := fun _ => t.

Definition ticking : clock := fun n => "2026-10-14T10:02:0" ++ str_of_nat n.

Definition sess0 : App := init_app "6f1d2c3b-0000" "2026-10-14T10:00:00" true.

Definition sess1 : App := snd (complete_onboarding sess0 "Sam" (inject_Z 8) "Female" "Gaza").

Definition turn_a : mm_message := {| m_files := []; m_text := "She wakes up crying" |}.

Definition sess2 : App := snd (add_message sess1 [] turn_a (at_time "2026-10-14T10:01:00")).

Definition created (v : option jval) : http_outcome :=
  PostResponse 201 "created" (BodyObject v).

Definition sess3 : App := pr_state (push_report_to_care_bridge sess2 (created (Some (JStr "r-42")))).

(** A second push whose 201 body carries [{"id": null}]. *)
Definition sess4 : App := pr_state (push_report_to_care_bridge sess3 (created (Some JNull))).

(** The POST outcomes the code treats as a failure. *)
Definition failed_post (post : http_outcome) : Prop :=
  match post with
  | PostResponse st _ (BodyObject _) => (st <> 201)%Z
  | _ => True
  end.

Definition model_down : structured_llm := fun _ => None.

Definition report_now : now_strs :=
  {| now_long := "October 14, 2026 at 10:05"; now_date := "October 14, 2026";
     now_iso := "2026-10-14T10:05:00" |}.

Definition no_reply_message : string :=
  "No specialist response available yet. Still monitoring...".

Definition reply_row : row :=
  {| response_date := "2026-10-14T11:30:12.000Z"; psychologist_id := "psy-7";
     urgency_level := "high"; psychologist_notes := "Sleep problems after relocation.";
     r_recommendations := RecDict [("follow_up", "within one week")] |}.

Definition sess_replied : App := set_specialist_response sess3 reply_row.

Definition no_conversation_message : string :=
  "Please have a conversation first before pushing a report.".

Definition not_onboarded_message : string :=
  "Please complete the initial assessment form first.".

Definition turn_A : mm_message := {| m_files := []; m_text := "A" |}.
Definition turn_B : mm_message := {| m_files := []; m_text := "B" |}.

(** Files [add_message] stores as drawings, resp. as photos. *)
Definition is_drawing (file : string) : bool :=
  String.eqb (classify_file_type file) "image" && py_contains "draw" (py_lower file).

Definition is_photo (file : string) : bool :=
  String.eqb (classify_file_type file) "image" && negb (py_contains "draw" (py_lower file)).

Definition mk_attachment (now file : string) : attachment :=
  {| at_path := file; at_timestamp := now |}.

(** The image files of a message, each with the index (from [k]) of the
    [datetime.now()] call that stamps it. *)
Fixpoint image_calls (k : nat) (files : list string) : list (nat * string) :=
  match files with
  | [] => []
  | f :: rest =>
      if String.eqb (classify_file_type f) "image" then (k, f) :: image_calls (S k) rest
      else image_calls k rest
  end.

Definition stamp (now : clock) (p : nat * string) : attachment :=
  mk_attachment (now (fst p)) (snd p).

Definition names_drawing (p : nat * string) : bool := py_contains "draw" (py_lower (snd p)).

(** Strings of ASCII characters only, and the ASCII letter case maps. *)
Definition ascii_only (s : string) : bool :=
  forallb (fun a => N.ltb (N_of_ascii a) 128) (list_ascii_of_string s).

Definition ascii_lower (c : ascii) : ascii :=
  let n := nat_of_ascii c in
  if Nat.leb 65 n && Nat.leb n 90 then ascii_of_nat (n + 32) else c.

Definition ascii_upper (c : ascii) : ascii :=
  let n := nat_of_ascii c in
  if Nat.leb 97 n && Nat.leb n 122 then ascii_of_nat (n - 32) else c.

Fixpoint map_ascii (f : ascii -> ascii) (s : string) : string :=
  match s with
  | EmptyString => EmptyString
  | String c r => String (f c) (map_ascii f r)
  end.


Definition late_reply (n : nat) : query_result :=
  if Nat.eqb n 3 then QRows [reply_row] else QRows [].

(** A photo sent with a caption, and two files sent without text. *)
Definition turn_photo_caption : mm_message :=
  {| m_files := ["uploads/family.jpg"]; m_text := "This is us before" |}.

Definition turn_photo : mm_message :=
  {| m_files := ["uploads/drawing_1.png"; "uploads/family.jpg"]; m_text := EmptyString |}.

(* ================================================================== *)
(** * Properties *)

(** ** Small facts about the embedding *)

Example cultural_context_gaza :
  generate_cultural_context "Gaza" =
  "Assessment conducted considering ongoing conflict exposure and displacement trauma".
Proof. reflexivity. Qed.

Example title_female : py_title "prefer not to say" = "Prefer Not To Say".
Proof. vm_compute. reflexivity. Qed.

Example str_int_500 : py_str_int 500 = "500".
Proof. reflexivity. Qed.

Lemma set_polling_active_same (s : App) :
  polling_active s = false -> set_polling_active s false = s.
Proof. destruct s; simpl; intros ->; reflexivity. Qed.

Lemma count_queries_app (e1 e2 : list poll_event) :
  count_queries (app e1 e2) = count_queries e1 + count_queries e2.
Proof.
  induction e1 as [|[] r IH]; simpl; [reflexivity| |]; rewrite ?IH; reflexivity.
Qed.

Lemma count_queries_attempts (x : jval) (k : nat) :
  count_queries (concat (repeat [Query x; Sleep 5] k)) = k.
Proof. induction k as [|k IH]; simpl; [reflexivity|]. rewrite IH. reflexivity. Qed.

Section PollingLoop.
Variable queries : nat -> query_result.
Hypothesis never_reply : forall n, no_reply (queries n).

(** With [k] attempts left in the budget, the loop makes exactly [k]
    more (query, 5-second sleep) attempts and then clears the flag. *)
Lemma poll_loop_exhausts (k : nat) :
  forall s c fuel,
    polling_active s = true -> c + k = max_polls -> k < fuel ->
    poll_loop fuel s c queries =
    Some (set_polling_active s false,
          concat (repeat [Query (submitted_report_id s); Sleep 5] k)).
Proof.
  induction k as [|k IH]; intros s c fuel Hact Hck Hfuel;
    (destruct fuel as [|fuel]; [lia|]).
  - simpl. unfold poll_iteration. rewrite Hact.
    replace c with max_polls by lia. simpl.
    unfold after_loop. simpl. reflexivity.
  - simpl. unfold poll_iteration. rewrite Hact.
    assert (Hlt : Nat.ltb c max_polls = true) by (apply Nat.ltb_lt; lia).
    rewrite Hlt. simpl.
    specialize (never_reply c).
    destruct (queries c) as [[|r rs]|e]; simpl in never_reply; try contradiction;
      rewrite (IH s (S c) fuel Hact ltac:(lia) ltac:(lia)); reflexivity.
Qed.
End PollingLoop.

(** ** C1: the polling loop gives up after 120 attempts *)

(** C1. When no lookup query of the loop ever returns a row (every result
    is empty data or a raised, swallowed error), [_poll_for_response]
    returns normally ([Some]) with [polling_active] cleared and nothing else
    changed; its observable behaviour is exactly 120 (query, sleep 5)
    attempts when it starts active (none if the flag is already clear), so
    at most 120 queries, errors counting like empty results. *)
Theorem poll_for_response_times_out (s : App) (queries : nat -> query_result) :
  (forall n, no_reply (queries n)) ->
  exists ev,
    _poll_for_response s queries = Some (set_polling_active s false, ev) /\
    ev = (if polling_active s
          then concat (repeat [Query (submitted_report_id s); Sleep 5] max_polls)
          else []) /\
    count_queries ev <= max_polls.
Proof.
  intros Hnone. destruct (polling_active s) eqn:Hact.
  - eexists. split; [|split; [reflexivity|]].
    + unfold _poll_for_response.
      apply (poll_loop_exhausts queries Hnone max_polls s 0); [exact Hact|lia|lia].
    + rewrite count_queries_attempts. lia.
  - exists []. split; [|split; [reflexivity|simpl; lia]].
    unfold _poll_for_response. simpl. unfold poll_iteration. rewrite Hact. simpl.
    unfold after_loop. simpl. rewrite (set_polling_active_same s Hact). reflexivity.
Qed.

Lemma poll_for_response_times_out_witness :
  (forall n, no_reply ((fun _ : nat => QError "connection reset") n)) /\
  exists ev,
    _poll_for_response polling_session (fun _ : nat => QError "connection reset")
      = Some (set_polling_active polling_session false, ev) /\
    ev = concat (repeat [Query (JStr "r-42"); Sleep 5] max_polls) /\
    count_queries ev <= max_polls.
Proof.
  split; [intros n; exact I|].
  apply (poll_for_response_times_out polling_session (fun _ : nat => QError "connection reset")).
  intros n; exact I.
Defined.

(** ** Frame lemmas: the handlers other than push and the polling thread
    leave the polling-related attributes alone. *)

Lemma update_assessment_view s f : poll_view (update_assessment s f) = poll_view s.
Proof. reflexivity. Qed.

Lemma complete_onboarding_view s n a g l :
  poll_view (snd (complete_onboarding s n a g l)) = poll_view s.
Proof. unfold complete_onboarding. destruct (negb _); reflexivity. Qed.

Lemma add_files_view files now k h s :
  poll_view (snd (add_files files now k h s)) = poll_view s.
Proof.
  revert k h s. induction files as [|f rest IH]; intros k h s; simpl; [reflexivity|].
  destruct (String.eqb _ _); rewrite IH; reflexivity.
Qed.

Lemma add_message_view s h m now :
  poll_view (snd (add_message s h m now)) = poll_view s.
Proof.
  unfold add_message. destruct (negb (is_onboarded s)); [reflexivity|].
  pose proof (add_files_view (m_files m) now 0 h s) as Hf.
  destruct (add_files (m_files m) now 0 h s) as [h1 s1]. simpl in Hf.
  destruct (str_truthy (m_text m)); simpl; exact Hf.
Qed.

Lemma bot_response_view s h t : poll_view (bot_response s h t) = poll_view s.
Proof.
  unfold bot_response. destruct (history_value s h); [reflexivity|].
  destruct (negb (is_onboarded s)); [reflexivity|]. destruct h; reflexivity.
Qed.

Lemma generate_view s llm now :
  poll_view (snd (generate_comprehensive_report s llm now)) = poll_view s.
Proof.
  unfold generate_comprehensive_report. destruct (negb (is_onboarded s)); [reflexivity|].
  destruct (ollama_conversation s); [reflexivity|].
  simpl. destruct (llm _); reflexivity.
Qed.

Lemma clear_conversation_view s : poll_view (snd (clear_conversation s)) = poll_view s.
Proof. reflexivity. Qed.

(** A push either leaves the state alone or stores an identifier and
    calls [start_response_polling]. *)
Lemma push_cases s post :
  pr_state (push_report_to_care_bridge s post) = s \/
  exists txt id,
    post = PostResponse 201 txt (BodyObject id) /\
    pr_state (push_report_to_care_bridge s post) =
    start_response_polling
      (set_report_id s (match id with Some v => v | None => JStr "Unknown" end)).
Proof.
  unfold push_report_to_care_bridge.
  destruct (negb (is_onboarded s)); [left; reflexivity|].
  destruct (conversation_history (report_data s)); [left; reflexivity|].
  destruct post as [| | e | e | st txt body]; try (left; reflexivity).
  destruct (Z.eqb st 201) eqn:Hst; [|left; reflexivity].
  apply Z.eqb_eq in Hst. subst st.
  destruct body as [id | e | e]; try (left; reflexivity).
  right. exists txt, id. split; reflexivity.
Qed.

(** ** The polling invariant *)

Lemma poll_inv_view s s' : poll_view s' = poll_view s -> poll_inv s -> poll_inv s'.
Proof.
  unfold poll_view, poll_inv. intros Heq. injection Heq.
  intros _ _ -> -> ->. exact (fun H => H).
Qed.

Lemma start_response_polling_inv s : poll_inv s -> poll_inv (start_response_polling s).
Proof.
  intros Hinv. unfold start_response_polling.
  destruct (negb (supabase s && jval_truthy (submitted_report_id s))) eqn:Hg;
    [exact Hinv|].
  destruct (polling_active s) eqn:Ha; [exact Hinv|].
  destruct Hinv as [_ Hf]. rewrite (Hf Ha).
  apply negb_false_iff, andb_true_iff in Hg. destruct Hg as [Hsb _].
  split; simpl; [intros _; split; [exact Hsb|exists 0; reflexivity]|discriminate].
Qed.

Lemma set_report_id_inv s v : poll_inv s -> poll_inv (set_report_id s v).
Proof. exact (fun H => H). Qed.

Lemma thread_turn_inv s i c qr :
  poll_inv s -> nth_error (poll_threads s) i = Some c -> poll_inv (thread_turn s i c qr).
Proof.
  intros [Ht Hf] Hnth. destruct (polling_active s) eqn:Ha.
  - destruct (Ht eq_refl) as [Hsb [c0 Hc0]]. rewrite Hc0 in Hnth.
    destruct i as [|[|i]]; simpl in Hnth; try discriminate.
    injection Hnth as <-.
    unfold thread_turn, poll_iteration. rewrite Ha. simpl.
    destruct (Nat.ltb c0 max_polls) eqn:Hlt.
    + destruct qr as [[|r rs]|e]; unfold poll_inv, replace_at, remove_at; simpl;
        rewrite ?Ha, Hc0; simpl.
      * split; [intros _; split; [exact Hsb|exists (S c0); reflexivity]|discriminate].
      * split; [discriminate|reflexivity].
      * split; [intros _; split; [exact Hsb|exists (S c0); reflexivity]|discriminate].
    + unfold after_loop.
      assert (Hle : Nat.leb max_polls c0 = true)
        by (apply Nat.leb_le; apply Nat.ltb_ge; exact Hlt).
      rewrite Hle. unfold poll_inv, remove_at; simpl; rewrite Hc0; simpl.
      split; [discriminate|reflexivity].
  - rewrite (Hf eq_refl) in Hnth. destruct i; discriminate.
Qed.

Lemma push_inv s post : poll_inv s -> poll_inv (pr_state (push_report_to_care_bridge s post)).
Proof.
  intros H. destruct (push_cases s post) as [-> | [txt [id [_ ->]]]]; [exact H|].
  apply start_response_polling_inv, set_report_id_inv, H.
Qed.

Lemma poll_inv_reachable allowed s : reachable allowed s -> poll_inv s.
Proof.
  induction 1 as [uuid start configured | s s' _ IH Hstep].
  - split; simpl; [discriminate|reflexivity].
  - destruct Hstep.
    + exact (poll_inv_view _ _ (complete_onboarding_view _ _ _ _ _) IH).
    + exact (poll_inv_view _ _ (add_message_view _ _ _ _) IH).
    + exact (poll_inv_view _ _ (bot_response_view _ _ _) IH).
    + exact (poll_inv_view _ _ (generate_view _ _ _) IH).
    + apply push_inv, IH.
    + exact (poll_inv_view _ _ (clear_conversation_view _) IH).
    + eapply thread_turn_inv; eassumption.
Qed.

(** [startPolling] while a loop is active changes nothing. *)
Lemma start_response_polling_active s :
  polling_active s = true -> start_response_polling s = s.
Proof.
  intros Ha. unfold start_response_polling. rewrite Ha.
  destruct (negb _); reflexivity.
Qed.

Lemma id_inv_view s s' : poll_view s' = poll_view s -> id_inv s -> id_inv s'.
Proof.
  unfold poll_view, id_inv. intros Heq. injection Heq.
  intros _ -> _ _ ->. exact (fun H => H).
Qed.

Lemma thread_turn_id s i c qr :
  submitted_report_id (thread_turn s i c qr) = submitted_report_id s /\
  (polling_active (thread_turn s i c qr) = true -> polling_active s = true).
Proof.
  unfold thread_turn, poll_iteration.
  destruct (polling_active s) eqn:Ha; simpl.
  - destruct (Nat.ltb c max_polls).
    + destruct qr as [[|r rs]|e]; simpl; split; auto.
    + unfold after_loop. destruct (Nat.leb max_polls c); simpl; split; auto.
  - unfold after_loop. destruct (Nat.leb max_polls c); simpl; split; auto.
    rewrite Ha. auto.
Qed.

Lemma push_id_inv s post :
  truthy_id_outcome post = true -> id_inv s ->
  id_inv (pr_state (push_report_to_care_bridge s post)).
Proof.
  intros Hok H. destruct (push_cases s post) as [-> | [txt [id [Hpost ->]]]]; [exact H|].
  subst post. simpl in Hok.
  set (v := match id with Some v => v | None => JStr "Unknown" end).
  assert (Hv : jval_truthy v = true) by (destruct id; [exact Hok|reflexivity]).
  unfold id_inv, start_response_polling.
  destruct (negb _); simpl; [intros _; exact Hv|].
  destruct (polling_active s); simpl; intros _; exact Hv.
Qed.

Lemma id_inv_reachable s : reachable truthy_id_outcome s -> id_inv s.
Proof.
  induction 1 as [uuid start configured | s s' _ IH Hstep].
  - unfold id_inv. simpl. discriminate.
  - destruct Hstep.
    + exact (id_inv_view _ _ (complete_onboarding_view _ _ _ _ _) IH).
    + exact (id_inv_view _ _ (add_message_view _ _ _ _) IH).
    + exact (id_inv_view _ _ (bot_response_view _ _ _) IH).
    + exact (id_inv_view _ _ (generate_view _ _ _) IH).
    + apply push_id_inv; assumption.
    + exact (id_inv_view _ _ (clear_conversation_view _) IH).
    + destruct (thread_turn_id s i c qr) as [Hid Hact].
      unfold id_inv in *. rewrite Hid. intros Ha. exact (IH (Hact Ha)).
Qed.

(** ** Reachability of the concrete sessions *)

Lemma sess3_reachable allowed :
  allowed (created (Some (JStr "r-42"))) = true -> reachable allowed sess3.
Proof.
  intros H. unfold sess3.
  eapply reach_step; [|apply step_push; exact H].
  unfold sess2. eapply reach_step; [|apply step_add].
  unfold sess1. eapply reach_step; [|apply step_onboard].
  apply reach_init.
Qed.

Lemma sess4_reachable : reachable (fun _ => true) sess4.
Proof.
  unfold sess4. eapply reach_step; [|apply step_push; reflexivity].
  apply sess3_reachable. reflexivity.
Qed.

(** ** C2: the polling flag *)

(** C2 (as stated): in every reachable state [polling_active] implies a
    stored identifier and a configured client. Refuted: after a first push
    started polling, a second push answered [201 {"id": null}] overwrites
    [submitted_report_id] with [None] while the loop stays active. *)
Lemma polling_invariant_counterexample :
  ~ (forall s, reachable (fun _ => true) s ->
       polling_active s = true ->
       jval_truthy (submitted_report_id s) = true /\ supabase s = true).
Proof.
  intros H. destruct (H sess4 sess4_reachable) as [Hid _].
  - vm_compute. reflexivity.
  - vm_compute in Hid. discriminate.
Qed.

(** C2 (amended). In every reachable state: [polling_active] implies the
    lookup-store client is configured; the flag is set exactly while one
    polling thread runs, so at most one runs; [start_response_polling] is a
    no-op while the flag is set; and, as long as no 201 push body carried
    a falsy [id], the flag implies a truthy [submitted_report_id]. *)
Theorem polling_invariant (s : App) :
  reachable (fun _ => true) s ->
  (polling_active s = true -> supabase s = true) /\
  List.length (poll_threads s) <= 1 /\
  (poll_threads s <> [] <-> polling_active s = true) /\
  (polling_active s = true -> start_response_polling s = s) /\
  (reachable truthy_id_outcome s ->
   polling_active s = true -> jval_truthy (submitted_report_id s) = true).
Proof.
  intros Hr. destruct (poll_inv_reachable _ _ Hr) as [Ht Hf].
  split; [intros Ha; exact (proj1 (Ht Ha))|].
  split.
  { destruct (polling_active s) eqn:Ha.
    - destruct (Ht eq_refl) as [_ [c ->]]. simpl. lia.
    - rewrite (Hf eq_refl). simpl. lia. }
  split.
  { split.
    - intros Hne. destruct (polling_active s) eqn:Ha; [reflexivity|].
      exfalso. exact (Hne (Hf eq_refl)).
    - intros Ha. destruct (Ht Ha) as [_ [c ->]]. discriminate. }
  split; [exact (start_response_polling_active s)|].
  intros Hr'. exact (id_inv_reachable s Hr').
Qed.

Lemma polling_invariant_witness :
  reachable (fun _ => true) sess3 /\
  ((polling_active sess3 = true -> supabase sess3 = true) /\
   List.length (poll_threads sess3) <= 1 /\
   (poll_threads sess3 <> [] <-> polling_active sess3 = true) /\
   (polling_active sess3 = true -> start_response_polling sess3 = sess3) /\
   (reachable truthy_id_outcome sess3 ->
    polling_active sess3 = true -> jval_truthy (submitted_report_id sess3) = true)).
Proof.
  split; [apply sess3_reachable; reflexivity|].
  apply polling_invariant. apply sess3_reachable. reflexivity.
Defined.

Example sess3_polling :
  polling_active sess3 = true /\ submitted_report_id sess3 = JStr "r-42" /\
  poll_threads sess3 = [0].
Proof. vm_compute. auto. Qed.

(** ** C3: failed pushes *)

(** C3 (as stated), its last part: only a 201 response carrying an [id]
    changes the state. Refuted: a 201 response whose JSON object has no
    [id] key stores the placeholder ["Unknown"] and starts polling. *)
Lemma push_failure_counterexample :
  ~ (forall s post,
       pr_state (push_report_to_care_bridge s post) <> s ->
       exists txt v, post = PostResponse 201 txt (BodyObject (Some v))).
Proof.
  intros H. destruct (H sess2 (created None)) as [txt [v Hpost]].
  - intros Heq. assert (Hid := f_equal submitted_report_id Heq).
    vm_compute in Hid. discriminate.
  - discriminate.
Qed.

Example push_without_id :
  submitted_report_id (pr_state (push_report_to_care_bridge sess2 (created None)))
    = JStr "Unknown" /\
  polling_active (pr_state (push_report_to_care_bridge sess2 (created None))) = true.
Proof. vm_compute. auto. Qed.

(** C3 (amended). For an onboarded session with a non-empty transcript:
    when the single POST fails (connection error, timeout, other request
    error, unexpected exception), answers a status other than 201, or
    answers 201 with a body that is not a JSON object, the push reports
    failure with a ["❌ ..."] message (["❌ API Error: <status> - <body>"]
    for a non-201 status), issues exactly one request and leaves the state
    unchanged; a 201 answer with a JSON object body reports success,
    stores its [id] (["Unknown"] when the key is absent) and calls
    [start_response_polling]. *)
Theorem push_failure_leaves_state (s : App) (post : http_outcome) :
  is_onboarded s = true -> conversation_history (report_data s) <> [] ->
  let res := push_report_to_care_bridge s post in
  pr_requests res = 1 /\
  (failed_post post ->
     pr_ok res = false /\ pr_state res = s /\ starts_with "❌" (pr_message res) = true /\
     (forall st txt body, post = PostResponse st txt body -> (st <> 201)%Z ->
        pr_message res = "❌ API Error: " ++ py_str_int st ++ " - " ++ txt)) /\
  (forall txt id, post = PostResponse 201 txt (BodyObject id) ->
     pr_ok res = true /\
     pr_state res = start_response_polling
       (set_report_id s (match id with Some v => v | None => JStr "Unknown" end))).
Proof.
  intros Hon Hne res. unfold res, push_report_to_care_bridge. rewrite Hon. simpl.
  destruct (conversation_history (report_data s)) as [|e es]; [contradiction|].
  destruct post as [| | err | err | st txt body].
  - split; [reflexivity|]. split; [|discriminate].
    intros _. repeat split; try reflexivity. discriminate.
  - split; [reflexivity|]. split; [|discriminate].
    intros _. repeat split; try reflexivity. discriminate.
  - split; [reflexivity|]. split; [|discriminate].
    intros _. repeat split; try reflexivity. discriminate.
  - split; [reflexivity|]. split; [|discriminate].
    intros _. repeat split; try reflexivity. discriminate.
  - destruct (Z.eqb st 201) eqn:Hst.
    + apply Z.eqb_eq in Hst. subst st.
      destruct body as [id | err | err].
      * split; [reflexivity|]. split.
        { simpl. intros H; contradiction. }
        intros txt' id' Heq. injection Heq as <- <-. split; reflexivity.
      * split; [reflexivity|]. split; [|discriminate].
        intros _. repeat split; try reflexivity.
        intros st' txt' body' Heq. injection Heq as <- _ _. contradiction.
      * split; [reflexivity|]. split; [|discriminate].
        intros _. repeat split; try reflexivity.
        intros st' txt' body' Heq. injection Heq as <- _ _. contradiction.
    + split; [reflexivity|]. split.
      * intros _. repeat split; try reflexivity.
        intros st' txt' body' Heq _. injection Heq as <- <- _. reflexivity.
      * intros txt' id' Heq. injection Heq as -> _ _. discriminate.
Qed.

Lemma push_failure_leaves_state_witness :
  is_onboarded sess2 = true /\ conversation_history (report_data sess2) <> [] /\
  let res := push_report_to_care_bridge sess2 (PostResponse 500 "Internal Server Error"
                                                 (BodyInvalid "Expecting value")) in
  pr_requests res = 1 /\
  (failed_post (PostResponse 500 "Internal Server Error" (BodyInvalid "Expecting value")) ->
     pr_ok res = false /\ pr_state res = sess2 /\ starts_with "❌" (pr_message res) = true /\
     (forall st txt body,
        PostResponse 500 "Internal Server Error" (BodyInvalid "Expecting value")
          = PostResponse st txt body -> (st <> 201)%Z ->
        pr_message res = "❌ API Error: " ++ py_str_int st ++ " - " ++ txt)) /\
  (forall txt id,
     PostResponse 500 "Internal Server Error" (BodyInvalid "Expecting value")
       = PostResponse 201 txt (BodyObject id) ->
     pr_ok res = true /\
     pr_state res = start_response_polling
       (set_report_id sess2 (match id with Some v => v | None => JStr "Unknown" end))).
Proof.
  split; [vm_compute; reflexivity|]. split; [vm_compute; discriminate|].
  apply push_failure_leaves_state; [vm_compute; reflexivity|vm_compute; discriminate].
Defined.

(** ** C4: the fallback assessment *)

(** C4 (as stated): on a failed model call the fallback record has
    severity 6, the three indicators and blank analysis and cultural
    context, and the report is rendered from it. Refuted: the fallback
    writes only severity and indicators, so the cultural context computed
    at onboarding ("Gaza") stays in the record and in the report. *)
Lemma fallback_report_counterexample :
  ~ (forall s llm now,
       is_onboarded s = true -> ollama_conversation s <> [] ->
       (forall msgs, llm msgs = None) ->
       let '(out, s') := generate_comprehensive_report s llm now in
       let a := assessment_data (report_data s') in
       severity_score a = 6%Z /\ risk_indicators a = fallback_indicators /\
       ai_analysis a = EmptyString /\ cultural_context a = EmptyString /\
       out = render_report s' now).
Proof.
  intros H. specialize (H sess2 model_down report_now).
  vm_compute in H.
  destruct H as [_ [_ [_ [Hcc _]]]]; [reflexivity|discriminate|reflexivity|].
  discriminate.
Qed.

Example fallback_report_renders :
  let out := fst (generate_comprehensive_report sess2 model_down report_now) in
  py_contains "**Severity Score:** 6/10" out = true /\
  py_contains "• sleep disturbances" out = true /\
  py_contains "• behavioral changes" out = true /\
  py_contains "• anxiety" out = true /\
  py_contains "displacement trauma" out = true.
Proof. vm_compute. repeat split. Qed.

(** C4 (amended). For an onboarded session whose model-facing
    conversation is non-empty, when the structured-output call fails the
    report still renders: the new state differs from the old one only by
    severity 6 and the three fallback indicators (observations, analysis
    and cultural context keep their previous values), and the returned
    string is the formatted report of that state. *)
Theorem fallback_report (s : App) (llm : structured_llm) (now : now_strs) :
  is_onboarded s = true -> ollama_conversation s <> [] ->
  (forall msgs, llm msgs = None) ->
  let s' := update_assessment s (fun a =>
              set_risk_indicators (set_severity_score a 6) fallback_indicators) in
  generate_comprehensive_report s llm now = (render_report s' now, s') /\
  severity_score (assessment_data (report_data s')) = 6%Z /\
  risk_indicators (assessment_data (report_data s')) = fallback_indicators /\
  parent_observations (assessment_data (report_data s')) =
    parent_observations (assessment_data (report_data s)) /\
  ai_analysis (assessment_data (report_data s')) = ai_analysis (assessment_data (report_data s)) /\
  cultural_context (assessment_data (report_data s')) =
    cultural_context (assessment_data (report_data s)) /\
  child_info (report_data s') = child_info (report_data s).
Proof.
  intros Hon Hne Hfail s'.
  split; [|repeat split].
  unfold generate_comprehensive_report. rewrite Hon. simpl.
  destruct (ollama_conversation s); [contradiction|].
  rewrite Hfail. reflexivity.
Qed.

Lemma fallback_report_witness :
  is_onboarded sess2 = true /\ ollama_conversation sess2 <> [] /\
  (forall msgs, model_down msgs = None) /\
  let s' := update_assessment sess2 (fun a =>
              set_risk_indicators (set_severity_score a 6) fallback_indicators) in
  generate_comprehensive_report sess2 model_down report_now = (render_report s' report_now, s') /\
  severity_score (assessment_data (report_data s')) = 6%Z /\
  risk_indicators (assessment_data (report_data s')) = fallback_indicators /\
  parent_observations (assessment_data (report_data s')) =
    parent_observations (assessment_data (report_data sess2)) /\
  ai_analysis (assessment_data (report_data s')) = ai_analysis (assessment_data (report_data sess2)) /\
  cultural_context (assessment_data (report_data s')) =
    cultural_context (assessment_data (report_data sess2)) /\
  child_info (report_data s') = child_info (report_data sess2).
Proof.
  split; [vm_compute; reflexivity|]. split; [vm_compute; discriminate|].
  split; [intros msgs; reflexivity|].
  apply fallback_report; [vm_compute; reflexivity|vm_compute; discriminate|intros msgs; reflexivity].
Defined.

(** ** C5: reading the specialist reply *)

(** C5 (as stated): before a reply is stored [get_specialist_response]
    returns [(False, "")]. Refuted: it returns [False] with a fixed
    non-empty message. *)
Lemma get_specialist_response_counterexample :
  ~ (forall s, specialist_response s = None ->
       get_specialist_response s = (false, EmptyString)).
Proof.
  intros H. specialize (H sess0 eq_refl). vm_compute in H. discriminate.
Qed.

Lemma thread_turn_keeps_reply s i c qr :
  no_reply qr -> specialist_response (thread_turn s i c qr) = specialist_response s.
Proof.
  intros Hq. unfold thread_turn, poll_iteration.
  destruct (polling_active s && Nat.ltb c max_polls).
  - destruct qr as [[|r rs]|e]; simpl in Hq; [reflexivity|contradiction|reflexivity].
  - unfold after_loop. destruct (Nat.leb max_polls c); reflexivity.
Qed.

Lemma thread_turn_reply_stays s i c qr :
  specialist_response s <> None -> specialist_response (thread_turn s i c qr) <> None.
Proof.
  intros Hs. unfold thread_turn, poll_iteration.
  destruct (polling_active s && Nat.ltb c max_polls).
  - destruct qr as [[|r rs]|e]; simpl; [exact Hs|discriminate|exact Hs].
  - unfold after_loop. destruct (Nat.leb max_polls c); exact Hs.
Qed.

Lemma view_reply s s' : poll_view s' = poll_view s ->
  specialist_response s' = specialist_response s.
Proof. unfold poll_view. intros Heq. injection Heq. intros ->. reflexivity. Qed.

(** C5 (amended). Without a stored reply [get_specialist_response] returns
    [False] and the fixed "No specialist response available yet. Still
    monitoring..." message; with a stored reply [r] it returns [True] and
    the fixed-template rendering of [r]. It reads the state only, and once
    a reply is stored every later step keeps one stored and keeps it
    unchanged, except a polling turn whose query returned a row, which
    stores that row. *)
Theorem get_specialist_response_stable (allowed : http_outcome -> bool) (s s' : App) :
  (specialist_response s = None ->
     get_specialist_response s = (false, no_reply_message)) /\
  (forall r, specialist_response s = Some r ->
     get_specialist_response s = (true, format_specialist_response r)) /\
  (step allowed s s' -> specialist_response s <> None ->
     specialist_response s' <> None /\
     (specialist_response s' = specialist_response s \/
      exists i c r rs, s' = thread_turn s i c (QRows (r :: rs)))).
Proof.
  split; [unfold get_specialist_response; intros ->; reflexivity|].
  split; [unfold get_specialist_response; intros r ->; reflexivity|].
  intros Hstep Hs. destruct Hstep.
  - rewrite (view_reply _ _ (complete_onboarding_view _ _ _ _ _)). auto.
  - rewrite (view_reply _ _ (add_message_view _ _ _ _)). auto.
  - rewrite (view_reply _ _ (bot_response_view _ _ _)). auto.
  - rewrite (view_reply _ _ (generate_view _ _ _)). auto.
  - destruct (push_cases s post) as [-> | [txt [id [_ ->]]]]; [auto|].
    unfold start_response_polling.
    destruct (negb _); [|destruct (polling_active _)]; simpl; auto.
  - rewrite (view_reply _ _ (clear_conversation_view _)). auto.
  - split; [apply thread_turn_reply_stays; exact Hs|].
    destruct qr as [[|r rs]|e].
    + left. apply thread_turn_keeps_reply. exact I.
    + right. exists i, c, r, rs. reflexivity.
    + left. apply thread_turn_keeps_reply. exact I.
Qed.

Lemma get_specialist_response_stable_witness :
  step (fun _ => true) sess_replied (snd (clear_conversation sess_replied)) /\
  ((specialist_response sess_replied = None ->
      get_specialist_response sess_replied = (false, no_reply_message)) /\
   (forall r, specialist_response sess_replied = Some r ->
      get_specialist_response sess_replied = (true, format_specialist_response r)) /\
   (step (fun _ => true) sess_replied (snd (clear_conversation sess_replied)) ->
      specialist_response sess_replied <> None ->
      specialist_response (snd (clear_conversation sess_replied)) <> None /\
      (specialist_response (snd (clear_conversation sess_replied)) =
         specialist_response sess_replied \/
       exists i c r rs, snd (clear_conversation sess_replied) =
                        thread_turn sess_replied i c (QRows (r :: rs))))).
Proof.
  split; [apply step_clear|].
  apply (get_specialist_response_stable (fun _ => true) sess_replied
           (snd (clear_conversation sess_replied))).
Defined.

Example reply_rendering :
  py_contains "**Urgency Level:** 🟠 HIGH" (snd (get_specialist_response sess_replied)) = true /\
  py_contains "**Response Date:** 2026-10-14 11:30:12" (snd (get_specialist_response sess_replied)) = true /\
  py_contains "**Follow Up:** within one week" (snd (get_specialist_response sess_replied)) = true.
Proof. vm_compute. repeat split. Qed.

(** ** C6: pushing without a conversation *)

(** C6 (as stated): with an empty transcript every push fails with the
    conversation-required message and issues no request. Refuted on the
    fresh session: the onboarding check runs first and its message is the
    onboarding one. *)
Lemma push_empty_transcript_counterexample :
  ~ (forall s post, conversation_history (report_data s) = [] ->
       pr_ok (push_report_to_care_bridge s post) = false /\
       pr_message (push_report_to_care_bridge s post) = no_conversation_message /\
       pr_requests (push_report_to_care_bridge s post) = 0).
Proof.
  intros H. destruct (H sess0 PostTimeout eq_refl) as [_ [Hm _]].
  vm_compute in Hm. discriminate.
Qed.

(** C6 (amended). With an empty transcript a push fails without issuing
    any request and leaves the state unchanged; its message is the
    conversation-required one for an onboarded session and the
    onboarding-required one otherwise. *)
Theorem push_empty_transcript (s : App) (post : http_outcome) :
  conversation_history (report_data s) = [] ->
  let res := push_report_to_care_bridge s post in
  pr_ok res = false /\ pr_requests res = 0 /\ pr_state res = s /\
  pr_message res = (if is_onboarded s then no_conversation_message
                    else not_onboarded_message).
Proof.
  intros Hh res. unfold res, push_report_to_care_bridge.
  destruct (is_onboarded s); simpl; [rewrite Hh|]; repeat split.
Qed.

Lemma push_empty_transcript_witness :
  conversation_history (report_data sess1) = [] /\
  let res := push_report_to_care_bridge sess1 PostTimeout in
  pr_ok res = false /\ pr_requests res = 0 /\ pr_state res = sess1 /\
  pr_message res = (if is_onboarded sess1 then no_conversation_message
                    else not_onboarded_message).
Proof.
  split; [vm_compute; reflexivity|].
  apply push_empty_transcript. vm_compute. reflexivity.
Defined.

(** ** C7: the reset *)

(** C7. [clear_conversation] empties the transcript, the observations and
    all three media lists, and keeps the child information and the session
    identifier. *)
Theorem clear_conversation_frame (s : App) :
  let '(chatbot, s') := clear_conversation s in
  chatbot = [] /\
  conversation_history (report_data s') = [] /\
  parent_observations (assessment_data (report_data s')) = EmptyString /\
  drawings (media_attachments (report_data s')) = [] /\
  audio_recordings (media_attachments (report_data s')) = [] /\
  photos (media_attachments (report_data s')) = [] /\
  child_info (report_data s') = child_info (report_data s) /\
  mobile_app_id (report_data s') = mobile_app_id (report_data s).
Proof. simpl. repeat split. Qed.

(** ** C8: the running observations *)

Lemma add_files_keeps files now k h s :
  assessment_data (report_data (snd (add_files files now k h s))) =
    assessment_data (report_data s) /\
  is_onboarded (snd (add_files files now k h s)) = is_onboarded s.
Proof.
  revert k h s. induction files as [|f rest IH]; intros k h s; simpl; [auto|].
  destruct (String.eqb _ _).
  - destruct (IH (S k) (app h [HFile "user" f]) (store_image s f (now k))) as [Ha Ho].
    rewrite Ha, Ho. unfold store_image. destruct (py_contains _ _); auto.
  - exact (IH k (app h [HFile "user" f]) s).
Qed.

(** One text turn of an onboarded session. *)
Lemma add_message_observations s h m now :
  is_onboarded s = true -> str_truthy (m_text m) = true ->
  let obs := parent_observations (assessment_data (report_data s)) in
  parent_observations (assessment_data (report_data (snd (add_message s h m now)))) =
    (if str_truthy obs then obs ++ " " ++ m_text m else m_text m) /\
  is_onboarded (snd (add_message s h m now)) = true.
Proof.
  intros Hon Ht obs. unfold add_message. rewrite Hon. simpl.
  destruct (add_files_keeps (m_files m) now 0 h s) as [Ha Ho].
  destruct (add_files (m_files m) now 0 h s) as [h1 s1]. simpl in Ha, Ho.
  rewrite Ht. simpl. unfold obs. rewrite Ha. split; [reflexivity|exact (eq_trans Ho Hon)].
Qed.

(** C8. Each text turn of an onboarded session is appended, after one
    space, to the running observations (or taken alone when they are
    empty); from empty observations, turns ["A"] then ["B"] leave
    ["A B"]. *)
Theorem add_message_appends (s : App) (h1 h2 : list hist_entry) (m1 m2 : mm_message)
    (now1 now2 : clock) :
  is_onboarded s = true ->
  parent_observations (assessment_data (report_data s)) = EmptyString ->
  str_truthy (m_text m1) = true -> str_truthy (m_text m2) = true ->
  let s1 := snd (add_message s h1 m1 now1) in
  let s2 := snd (add_message s1 h2 m2 now2) in
  parent_observations (assessment_data (report_data s1)) = m_text m1 /\
  parent_observations (assessment_data (report_data s2)) = m_text m1 ++ " " ++ m_text m2.
Proof.
  intros Hon Hemp Ht1 Ht2 s1 s2.
  destruct (add_message_observations s h1 m1 now1 Hon Ht1) as [Ho1 Hon1].
  rewrite Hemp in Ho1. simpl in Ho1. fold s1 in Ho1, Hon1.
  destruct (add_message_observations s1 h2 m2 now2 Hon1 Ht2) as [Ho2 _].
  fold s2 in Ho2. rewrite Ho1, Ht1 in Ho2. split; assumption.
Qed.

Lemma add_message_appends_witness :
  is_onboarded sess1 = true /\
  parent_observations (assessment_data (report_data sess1)) = EmptyString /\
  str_truthy (m_text turn_A) = true /\ str_truthy (m_text turn_B) = true /\
  let s1 := snd (add_message sess1 [] turn_A (at_time "t1")) in
  let s2 := snd (add_message s1 [HText "user" "A"] turn_B (at_time "t2")) in
  parent_observations (assessment_data (report_data s1)) = m_text turn_A /\
  parent_observations (assessment_data (report_data s2)) = m_text turn_A ++ " " ++ m_text turn_B.
Proof.
  split; [vm_compute; reflexivity|]. split; [vm_compute; reflexivity|].
  split; [reflexivity|]. split; [reflexivity|].
  apply add_message_appends; vm_compute; reflexivity.
Defined.

Example observations_A_B :
  parent_observations (assessment_data (report_data
    (snd (add_message (snd (add_message sess1 [] turn_A (at_time "t1"))) [] turn_B (at_time "t2"))))) = "A B".
Proof. vm_compute. reflexivity. Qed.

(** ** C9: onboarding does not check the age range *)

(** C9. [complete_onboarding] succeeds for any non-empty name, gender and
    location and any non-zero age, inside [2, 18] or not: it stores
    [int(age)] and opens the onboarding gate. *)
Theorem complete_onboarding_any_age (s : App) (n : string) (a : Q) (g l : string) :
  str_truthy n = true -> num_truthy a = true ->
  str_truthy g = true -> str_truthy l = true ->
  let '((ok, _), s') := complete_onboarding s n a g l in
  ok = true /\ is_onboarded s' = true /\
  child_info (report_data s') = {| name := n; age := py_int a; gender := g; location := l |}.
Proof.
  intros Hn Ha Hg Hl. unfold complete_onboarding.
  rewrite Hn, Ha, Hg, Hl. simpl. repeat split.
Qed.

Lemma complete_onboarding_any_age_witness :
  str_truthy "Sam" = true /\ num_truthy (inject_Z 100) = true /\
  str_truthy "Female" = true /\ str_truthy "Gaza" = true /\
  let '((ok, _), s') := complete_onboarding sess0 "Sam" (inject_Z 100) "Female" "Gaza" in
  ok = true /\ is_onboarded s' = true /\
  child_info (report_data s') =
    {| name := "Sam"; age := py_int (inject_Z 100); gender := "Female"; location := "Gaza" |}.
Proof.
  split; [reflexivity|]. split; [reflexivity|]. split; [reflexivity|]. split; [reflexivity|].
  apply complete_onboarding_any_age; reflexivity.
Defined.

Example onboarding_out_of_range :
  fst (fst (complete_onboarding sess0 "Sam" (inject_Z 1) "Male" "Kyiv")) = true /\
  fst (fst (complete_onboarding sess0 "Sam" (inject_Z (-3)) "Male" "Kyiv")) = true /\
  age (child_info (report_data (snd (complete_onboarding sess0 "Sam" (7 # 2) "Male" "Kyiv"))))
    = 3%Z /\
  fst (fst (complete_onboarding sess0 "Sam" (inject_Z 0) "Male" "Kyiv")) = false.
Proof. vm_compute. repeat split. Qed.

(** ** C10: the two "non-empty conversation" gates after a reset *)

(** C10, at the session [sess2] (onboarded, one text turn "She wakes up
    crying") after "New Conversation": the reset keeps the turn in the
    model-facing conversation, so [generate_comprehensive_report] passes
    its non-empty-conversation gate and returns a formatted report, while
    [push_report_to_care_bridge] is refused with the conversation-required
    message and no request. But the report is not synthesized from that
    turn: the only message its model call is sent is the prompt built from
    the child information, which does not contain the turn. *)
Theorem reset_report_ignores_turns :
  let s' := snd (clear_conversation sess2) in
  In {| cm_role := "user"; cm_content := "She wakes up crying" |} (ollama_conversation s') /\
  (forall llm now, exists s'',
     generate_comprehensive_report s' llm now = (render_report s'' now, s'')) /\
  (forall post,
     pr_ok (push_report_to_care_bridge s' post) = false /\
     pr_message (push_report_to_care_bridge s' post) = no_conversation_message /\
     pr_requests (push_report_to_care_bridge s' post) = 0) /\
  (forall m', In m' (report_messages s') ->
     py_contains "She wakes up crying" (cm_content m') = false).
Proof.
  cbv zeta.
  assert (Ho : is_onboarded (snd (clear_conversation sess2)) = true)
    by (vm_compute; reflexivity).
  assert (Hc : ollama_conversation (snd (clear_conversation sess2)) =
               [{| cm_role := "user"; cm_content := "She wakes up crying" |}])
    by (vm_compute; reflexivity).
  assert (Hh : conversation_history (report_data (snd (clear_conversation sess2))) = [])
    by reflexivity.
  split; [rewrite Hc; left; reflexivity|].
  split; [|split].
  - intros llm now. unfold generate_comprehensive_report. rewrite Ho, Hc.
    eexists. reflexivity.
  - intros post. unfold push_report_to_care_bridge. rewrite Ho, Hh.
    repeat split.
  - intros m' Hin. vm_compute in Hin. destruct Hin as [<- | []].
    vm_compute. reflexivity.
Qed.


(* ================================================================== *)
(** * Further properties of the code *)

(** ** [classify_file_type] on ASCII file names *)

(** On an ASCII character, the Unicode case tables give the ASCII letter
    case maps, and the UTF-8 encoding is the byte itself. *)
Lemma ascii_char_case (a : ascii) :
  N.ltb (N_of_ascii a) 128 = true ->
  (byte_val a <? 128)%Z = true /\ byte_val a <> 931%Z /\
  full_map lower_special lower_table (byte_val a) = [byte_val (ascii_lower a)] /\
  full_map upper_special upper_table (byte_val a) = [byte_val (ascii_upper a)] /\
  encode_cp (byte_val (ascii_lower a)) = String (ascii_lower a) EmptyString /\
  encode_cp (byte_val (ascii_upper a)) = String (ascii_upper a) EmptyString /\
  N.ltb (N_of_ascii (ascii_upper a)) 128 = true /\
  ascii_lower (ascii_upper a) = ascii_lower a /\
  ascii_lower (ascii_lower a) = ascii_lower a.
Proof.
  destruct a as [b0 b1 b2 b3 b4 b5 b6 b7]; intros H.
  destruct b0, b1, b2, b3, b4, b5, b6, b7; vm_compute in H; try discriminate H;
    vm_compute; repeat split; first [reflexivity | discriminate | intros Hx; discriminate Hx].
Qed.

Lemma py_lower_ascii (s : string) :
  ascii_only s = true -> py_lower s = map_ascii ascii_lower s.
Proof.
  unfold py_lower. generalize (@nil Z) as before.
  induction s as [|a r IH]; intros before Hs; [reflexivity|].
  simpl in Hs. apply andb_true_iff in Hs. destruct Hs as [Ha Hr].
  destruct (ascii_char_case a Ha) as [Hb [Hn [Hl [_ [He _]]]]].
  simpl utf8_decode. rewrite Hb. simpl lower_cps.
  unfold lower_ucs4. apply Z.eqb_neq in Hn. rewrite Hn, Hl.
  simpl. rewrite He. simpl. f_equal. apply IH. exact Hr.
Qed.

Lemma py_upper_ascii (s : string) :
  ascii_only s = true ->
  py_upper s = map_ascii ascii_upper s /\ ascii_only (map_ascii ascii_upper s) = true.
Proof.
  unfold py_upper. induction s as [|a r IH]; intros Hs; [split; reflexivity|].
  simpl in Hs. apply andb_true_iff in Hs. destruct Hs as [Ha Hr].
  destruct (ascii_char_case a Ha) as [Hb [_ [_ [Hu [_ [He [Hua _]]]]]]].
  destruct (IH Hr) as [IH1 IH2].
  simpl utf8_decode. rewrite Hb. simpl flat_map. rewrite Hu.
  simpl. rewrite He. simpl. split; [f_equal; exact IH1|].
  apply andb_true_iff. split; [exact Hua|exact IH2].
Qed.

Lemma map_lower_upper (s : string) :
  ascii_only s = true ->
  map_ascii ascii_lower (map_ascii ascii_upper s) = map_ascii ascii_lower s /\
  map_ascii ascii_lower (map_ascii ascii_lower s) = map_ascii ascii_lower s /\
  ascii_only (map_ascii ascii_lower s) = true.
Proof.
  induction s as [|a r IH]; intros Hs; [repeat split|].
  simpl in Hs. apply andb_true_iff in Hs. destruct Hs as [Ha Hr].
  destruct (ascii_char_case a Ha) as [_ [_ [_ [_ [_ [_ [_ [H1 H2]]]]]]]].
  destruct (IH Hr) as [I1 [I2 I3]].
  simpl. rewrite H1, H2, I1, I2. repeat split.
  apply andb_true_iff. split; [|exact I3].
  revert Ha. clear.
  destruct a as [b0 b1 b2 b3 b4 b5 b6 b7]; intros H.
  destruct b0, b1, b2, b3, b4, b5, b6, b7; vm_compute in H; try discriminate H;
    vm_compute; reflexivity.
Qed.

(** For an ASCII file name, upper- or lower-casing it changes neither its
    classification nor whether [add_message] files it as a drawing or a
    photo. *)
Theorem file_routing_case_insensitive (file : string) :
  ascii_only file = true ->
  classify_file_type (py_upper file) = classify_file_type file /\
  classify_file_type (py_lower file) = classify_file_type file /\
  is_drawing (py_upper file) = is_drawing file /\
  is_photo (py_lower file) = is_photo file.
Proof.
  intros Hs.
  destruct (py_upper_ascii file Hs) as [Hu Hua].
  destruct (map_lower_upper file Hs) as [Hlu [Hll Hla]].
  assert (Hup : py_lower (py_upper file) = py_lower file).
  { rewrite Hu, (py_lower_ascii _ Hua), (py_lower_ascii _ Hs). exact Hlu. }
  assert (Hlo : py_lower (py_lower file) = py_lower file).
  { rewrite (py_lower_ascii file Hs) at 2. rewrite (py_lower_ascii file Hs).
    rewrite (py_lower_ascii _ Hla). exact Hll. }
  unfold is_drawing, is_photo, classify_file_type.
  rewrite Hup, Hlo. repeat split.
Qed.

Lemma file_routing_case_insensitive_witness :
  ascii_only "Family_Drawing.JPG" = true /\
  classify_file_type (py_upper "Family_Drawing.JPG") = classify_file_type "Family_Drawing.JPG" /\
  classify_file_type (py_lower "Family_Drawing.JPG") = classify_file_type "Family_Drawing.JPG" /\
  is_drawing (py_upper "Family_Drawing.JPG") = is_drawing "Family_Drawing.JPG" /\
  is_photo (py_lower "Family_Drawing.JPG") = is_photo "Family_Drawing.JPG".
Proof.
  split; [vm_compute; reflexivity|].
  apply file_routing_case_insensitive. vm_compute. reflexivity.
Defined.

Example routing_examples :
  classify_file_type "Scan.PNG" = "image" /\ classify_file_type "voice.mp3" = "other" /\
  is_drawing "my_DRAWING.jpg" = true /\ is_photo "family.jpeg" = true /\
  is_drawing "drawing.pdf" = false.
Proof. vm_compute. repeat split. Qed.

(** ** [add_message]: attachments *)

Lemma add_files_spec files now :
  forall k h s,
    let '(h', s') := add_files files now k h s in
    h' = app h (map (HFile "user") files) /\
    drawings (media_attachments (report_data s')) =
      app (drawings (media_attachments (report_data s)))
          (map (stamp now) (filter names_drawing (image_calls k files))) /\
    photos (media_attachments (report_data s')) =
      app (photos (media_attachments (report_data s)))
          (map (stamp now) (filter (fun p => negb (names_drawing p)) (image_calls k files))) /\
    audio_recordings (media_attachments (report_data s')) =
      audio_recordings (media_attachments (report_data s)) /\
    assessment_data (report_data s') = assessment_data (report_data s) /\
    ollama_conversation s' = ollama_conversation s /\
    is_onboarded s' = is_onboarded s.
Proof.
  induction files as [|f rest IH]; intros k h s; simpl.
  - rewrite !app_nil_r. repeat split.
  - destruct (String.eqb (classify_file_type f) "image").
    + specialize (IH (S k) (app h [HFile "user" f]) (store_image s f (now k))).
      destruct (add_files rest now _ _ _) as [h' s'].
      destruct IH as [Hh [Hd [Hp [Ha [Has [Ho Hon]]]]]].
      rewrite Hh, <- app_assoc. simpl.
      unfold store_image, names_drawing in *. simpl in *.
      destruct (py_contains "draw" (py_lower f)); simpl in *;
        rewrite ?Hd, ?Hp, ?Ha, ?Has, ?Ho, ?Hon, <- ?app_assoc; repeat split.
    + specialize (IH k (app h [HFile "user" f]) s).
      destruct (add_files rest now _ _ _) as [h' s'].
      destruct IH as [Hh [Hd [Hp [Ha [Has [Ho Hon]]]]]].
      rewrite Hh, <- app_assoc. simpl. repeat split; assumption.
Qed.

(** An onboarded [add_message] with attachments and no text appends one
    history entry per file, in order, and stores that history; the [j]-th
    image file (counting from 0) is stamped with the [j]-th clock reading
    and goes to the drawings when its lower-cased name contains "draw", to
    the photos otherwise; other files (audio included) are not stored, and
    the observations and the model conversation stay. *)
Theorem add_message_files (s : App) (h : list hist_entry) (files : list string) (now : clock) :
  is_onboarded s = true ->
  let '(h', s') := add_message s h {| m_files := files; m_text := EmptyString |} now in
  h' = app h (map (HFile "user") files) /\
  conversation_history (report_data s') = h' /\
  drawings (media_attachments (report_data s')) =
    app (drawings (media_attachments (report_data s)))
        (map (stamp now) (filter names_drawing (image_calls 0 files))) /\
  photos (media_attachments (report_data s')) =
    app (photos (media_attachments (report_data s)))
        (map (stamp now) (filter (fun p => negb (names_drawing p)) (image_calls 0 files))) /\
  audio_recordings (media_attachments (report_data s')) =
    audio_recordings (media_attachments (report_data s)) /\
  assessment_data (report_data s') = assessment_data (report_data s) /\
  ollama_conversation s' = ollama_conversation s.
Proof.
  intros Hon. unfold add_message. rewrite Hon. simpl.
  pose proof (add_files_spec files now 0 h s) as Hf.
  destruct (add_files files now 0 h s) as [h1 s1].
  destruct Hf as [Hh [Hd [Hp [Ha [Has [Ho _]]]]]].
  simpl. repeat split; assumption.
Qed.

Lemma add_message_files_witness :
  is_onboarded sess1 = true /\
  let '(h', s') := add_message sess1 [] {| m_files := ["house_drawing.PNG"; "voice.mp3"; "beach.jpg"; "Drawing2.gif"]; m_text := EmptyString |} ticking in
  h' = app [] (map (HFile "user") ["house_drawing.PNG"; "voice.mp3"; "beach.jpg"; "Drawing2.gif"]) /\
  conversation_history (report_data s') = h' /\
  drawings (media_attachments (report_data s')) =
    app (drawings (media_attachments (report_data sess1)))
        (map (stamp ticking) (filter names_drawing (image_calls 0 ["house_drawing.PNG"; "voice.mp3"; "beach.jpg"; "Drawing2.gif"]))) /\
  photos (media_attachments (report_data s')) =
    app (photos (media_attachments (report_data sess1)))
        (map (stamp ticking) (filter (fun p => negb (names_drawing p)) (image_calls 0 ["house_drawing.PNG"; "voice.mp3"; "beach.jpg"; "Drawing2.gif"]))) /\
  audio_recordings (media_attachments (report_data s')) =
    audio_recordings (media_attachments (report_data sess1)) /\
  assessment_data (report_data s') = assessment_data (report_data sess1) /\
  ollama_conversation s' = ollama_conversation sess1.
Proof.
  split; [vm_compute; reflexivity|].
  apply (add_message_files sess1 [] ["house_drawing.PNG"; "voice.mp3"; "beach.jpg"; "Drawing2.gif"] ticking).
  vm_compute. reflexivity.
Defined.

(** ** A text turn followed by the bot reply *)

(** An onboarded text turn stores the very history list it returns; when
    [bot_response] is then called on that list, the model conversation
    grows by exactly the user turn and the assistant reply, and the stored
    transcript by the attachments, the text and the assistant entry. *)
Theorem turn_then_bot_response (s : App) (h : list hist_entry) (m : mm_message)
    (now : clock) (reply : string) :
  is_onboarded s = true -> str_truthy (m_text m) = true ->
  let '(h', s1) := add_message s h m now in
  conversation_history (report_data s1) = h' /\
  ollama_conversation (bot_response s1 SharedHistory reply) =
    app (ollama_conversation s)
        [{| cm_role := "user"; cm_content := m_text m |};
         {| cm_role := "assistant"; cm_content := reply |}] /\
  conversation_history (report_data (bot_response s1 SharedHistory reply)) =
    app (app (app h (map (HFile "user") (m_files m))) [HText "user" (m_text m)])
        [HText "assistant" reply].
Proof.
  intros Hon Ht. unfold add_message. rewrite Hon. simpl.
  pose proof (add_files_spec (m_files m) now 0 h s) as Hf.
  destruct (add_files (m_files m) now 0 h s) as [h1 s1].
  destruct Hf as [Hh [_ [_ [_ [_ [Ho Hon1]]]]]].
  rewrite Ht. split; [reflexivity|]. unfold bot_response, history_value. simpl.
  destruct (app h1 [HText "user" (m_text m)]) as [|e es] eqn:He.
  - destruct h1; discriminate.
  - simpl. rewrite Hon1, Hon. simpl.
    split; [rewrite Ho, <- app_assoc; reflexivity|].
    rewrite app_comm_cons, <- He, Hh. reflexivity.
Qed.

Lemma turn_then_bot_response_witness :
  is_onboarded sess1 = true /\ str_truthy (m_text turn_a) = true /\
  let '(h', s1) := add_message sess1 [] turn_a (at_time "t") in
  conversation_history (report_data s1) = h' /\
  ollama_conversation (bot_response s1 SharedHistory "I hear you.") =
    app (ollama_conversation sess1)
        [{| cm_role := "user"; cm_content := m_text turn_a |};
         {| cm_role := "assistant"; cm_content := "I hear you." |}] /\
  conversation_history (report_data (bot_response s1 SharedHistory "I hear you.")) =
    app (app (app [] (map (HFile "user") (m_files turn_a))) [HText "user" (m_text turn_a)])
        [HText "assistant" "I hear you."].
Proof.
  split; [vm_compute; reflexivity|]. split; [reflexivity|].
  apply turn_then_bot_response; [vm_compute; reflexivity|reflexivity].
Defined.

(** ** [push_report_to_care_bridge]: the accepted push *)

(** A 201 answer with a truthy [id] on an onboarded session with a
    transcript and no active loop stores the id and reports success; it
    starts exactly one polling thread when the lookup store is configured,
    and starts none (the flag stays clear) when it is not. *)
Theorem push_accepted_starts_polling (s : App) (txt : string) (v : jval) :
  is_onboarded s = true -> conversation_history (report_data s) <> [] ->
  polling_active s = false -> jval_truthy v = true ->
  let res := push_report_to_care_bridge s (PostResponse 201 txt (BodyObject (Some v))) in
  pr_ok res = true /\ pr_requests res = 1 /\
  submitted_report_id (pr_state res) = v /\
  polling_active (pr_state res) = supabase s /\
  poll_threads (pr_state res) =
    (if supabase s then app (poll_threads s) [0] else poll_threads s).
Proof.
  intros Hon Hne Hoff Hv res. unfold res, push_report_to_care_bridge. rewrite Hon. simpl.
  destruct (conversation_history (report_data s)); [contradiction|].
  simpl. unfold start_response_polling. simpl. rewrite Hv, Hoff.
  destruct (supabase s); simpl; repeat split; assumption.
Qed.

Lemma push_accepted_starts_polling_witness :
  is_onboarded sess2 = true /\ conversation_history (report_data sess2) <> [] /\
  polling_active sess2 = false /\ jval_truthy (JStr "r-42") = true /\
  let res := push_report_to_care_bridge sess2 (PostResponse 201 "created" (BodyObject (Some (JStr "r-42")))) in
  pr_ok res = true /\ pr_requests res = 1 /\
  submitted_report_id (pr_state res) = JStr "r-42" /\
  polling_active (pr_state res) = supabase sess2 /\
  poll_threads (pr_state res) =
    (if supabase sess2 then app (poll_threads sess2) [0] else poll_threads sess2).
Proof.
  split; [vm_compute; reflexivity|]. split; [vm_compute; discriminate|].
  split; [vm_compute; reflexivity|]. split; [reflexivity|].
  apply push_accepted_starts_polling;
    [vm_compute; reflexivity|vm_compute; discriminate|vm_compute; reflexivity|reflexivity].
Defined.

(** ** [_poll_for_response]: a reply arrives *)

Section ReplyFound.
Variable queries : nat -> query_result.
Variable k : nat.
Variable r : row.
Variable rs : list row.
Hypothesis before_k : forall n, n < k -> no_reply (queries n).
Hypothesis at_k : queries k = QRows (r :: rs).
Hypothesis k_in_budget : k < max_polls.

Lemma poll_loop_found (j : nat) :
  forall s c fuel,
    polling_active s = true -> c + j = k -> j < fuel ->
    poll_loop fuel s c queries =
    Some (set_polling_active (set_specialist_response s r) false,
          app (concat (repeat [Query (submitted_report_id s); Sleep 5] j))
              [Query (submitted_report_id s)]).
Proof.
  induction j as [|j IH]; intros s c fuel Hact Hcj Hfuel;
    (destruct fuel as [|fuel]; [lia|]).
  - simpl. unfold poll_iteration. rewrite Hact.
    replace c with k by lia.
    assert (Hlt : Nat.ltb k max_polls = true) by (apply Nat.ltb_lt; exact k_in_budget).
    rewrite Hlt, at_k. reflexivity.
  - simpl. unfold poll_iteration. rewrite Hact.
    assert (Hlt : Nat.ltb c max_polls = true) by (apply Nat.ltb_lt; lia).
    rewrite Hlt. simpl.
    pose proof (before_k c ltac:(lia)) as Hn.
    destruct (queries c) as [[|r' rs']|e]; simpl in Hn; try contradiction;
      rewrite (IH s (S c) fuel Hact ltac:(lia) ltac:(lia)); reflexivity.
Qed.
End ReplyFound.

(** When the first row arrives at attempt [k] (within the budget), the
    loop stops right there: [k] (query, sleep 5) attempts then the query
    that succeeded, the first row stored as the reply and the flag
    cleared; the reply panel then shows that row's rendering. *)
Theorem poll_for_response_reply (s : App) (queries : nat -> query_result)
    (k : nat) (r : row) (rs : list row) :
  polling_active s = true ->
  (forall n, n < k -> no_reply (queries n)) -> queries k = QRows (r :: rs) ->
  k < max_polls ->
  _poll_for_response s queries =
    Some (set_polling_active (set_specialist_response s r) false,
          app (concat (repeat [Query (submitted_report_id s); Sleep 5] k))
              [Query (submitted_report_id s)]) /\
  check_for_response (set_polling_active (set_specialist_response s r) false) =
    (format_specialist_response r, div "status-success" "✅ Specialist response received!").
Proof.
  intros Hact Hbefore Hat Hk. split.
  - unfold _poll_for_response.
    apply (poll_loop_found queries k r rs Hbefore Hat Hk k s 0); [exact Hact|lia|unfold max_polls in *; lia].
  - reflexivity.
Qed.

Lemma poll_for_response_reply_witness :
  polling_active polling_session = true /\
  (forall n, n < 3 -> no_reply (late_reply n)) /\ late_reply 3 = QRows [reply_row] /\
  3 < max_polls /\
  (_poll_for_response polling_session late_reply =
    Some (set_polling_active (set_specialist_response polling_session reply_row) false,
          app (concat (repeat [Query (submitted_report_id polling_session); Sleep 5] 3))
              [Query (submitted_report_id polling_session)]) /\
  check_for_response (set_polling_active (set_specialist_response polling_session reply_row) false) =
    (format_specialist_response reply_row,
     div "status-success" "✅ Specialist response received!")).
Proof.
  assert (Hb : forall n, n < 3 -> no_reply (late_reply n)).
  { intros n Hn. unfold late_reply. destruct (Nat.eqb n 3) eqn:E.
    - apply Nat.eqb_eq in E. lia.
    - exact I. }
  split; [reflexivity|]. split; [exact Hb|]. split; [reflexivity|]. split; [unfold max_polls; lia|].
  apply (poll_for_response_reply polling_session late_reply 3 reply_row []);
    [reflexivity|exact Hb|reflexivity|unfold max_polls; lia].
Defined.

(** After a loop that timed out with no reply stored on a session with a
    truthy identifier, the reply panel is empty and the status line says
    monitoring stopped. *)
Theorem check_after_timeout (s : App) (queries : nat -> query_result) :
  (forall n, no_reply (queries n)) ->
  specialist_response s = None -> jval_truthy (submitted_report_id s) = true ->
  exists ev,
    _poll_for_response s queries = Some (set_polling_active s false, ev) /\
    check_for_response (set_polling_active s false) =
      (EmptyString,
       div "status-warning" "⏸️ Monitoring stopped. No response received within time limit.").
Proof.
  intros Hnone Hrep Hid.
  destruct (poll_for_response_times_out s queries Hnone) as [ev [Hrun _]].
  exists ev. split; [exact Hrun|].
  unfold check_for_response, get_specialist_response. simpl.
  rewrite Hrep. simpl. rewrite Hid. reflexivity.
Qed.

Lemma check_after_timeout_witness :
  (forall n, no_reply ((fun _ : nat => QRows []) n)) /\
  specialist_response polling_session = None /\
  jval_truthy (submitted_report_id polling_session) = true /\
  exists ev,
    _poll_for_response polling_session (fun _ : nat => QRows []) =
      Some (set_polling_active polling_session false, ev) /\
    check_for_response (set_polling_active polling_session false) =
      (EmptyString,
       div "status-warning" "⏸️ Monitoring stopped. No response received within time limit.").
Proof.
  split; [intros n; exact I|]. split; [reflexivity|]. split; [reflexivity|].
  apply check_after_timeout; [intros n; exact I|reflexivity|reflexivity].
Defined.

(** ** The attempt counter of a polling thread *)

Lemma thread_turn_bound s i c qr :
  poll_inv s -> nth_error (poll_threads s) i = Some c ->
  Forall (fun c => c <= max_polls) (poll_threads s) ->
  Forall (fun c => c <= max_polls) (poll_threads (thread_turn s i c qr)).
Proof.
  intros [Ht Hf] Hnth Hb. destruct (polling_active s) eqn:Ha.
  - destruct (Ht eq_refl) as [Hsb [c0 Hc0]]. rewrite Hc0 in Hnth.
    destruct i as [|[|i]]; simpl in Hnth; try discriminate.
    injection Hnth as <-.
    unfold thread_turn, poll_iteration. rewrite Ha. simpl.
    destruct (Nat.ltb c0 max_polls) eqn:Hlt.
    + apply Nat.ltb_lt in Hlt.
      destruct qr as [[|r rs]|e]; unfold replace_at, remove_at; simpl; rewrite Hc0; simpl;
        first [apply Forall_nil | constructor; [lia|apply Forall_nil]].
    + unfold after_loop.
      assert (Hle : Nat.leb max_polls c0 = true)
        by (apply Nat.leb_le; apply Nat.ltb_ge; exact Hlt).
      rewrite Hle. unfold remove_at; simpl; rewrite Hc0; simpl. constructor.
  - rewrite (Hf eq_refl) in Hnth. destruct i; discriminate.
Qed.

Lemma push_bound s post :
  Forall (fun c => c <= max_polls) (poll_threads s) ->
  Forall (fun c => c <= max_polls) (poll_threads (pr_state (push_report_to_care_bridge s post))).
Proof.
  intros H. destruct (push_cases s post) as [-> | [txt [id [_ ->]]]]; [exact H|].
  unfold start_response_polling. simpl.
  destruct (negb _); [exact H|]. destruct (polling_active s); [exact H|].
  simpl. apply Forall_app. split; [exact H|]. constructor; [unfold max_polls; lia|constructor].
Qed.

Lemma view_bound s s' : poll_view s' = poll_view s ->
  Forall (fun c => c <= max_polls) (poll_threads s) ->
  Forall (fun c => c <= max_polls) (poll_threads s').
Proof.
  unfold poll_view. intros Heq. injection Heq. intros _ _ -> _ _. exact (fun H => H).
Qed.

(** In every reachable session each running polling thread has made at
    most [max_polls = 120] lookups: a thread's counter only grows while it
    is below the bound, and a thread at the bound exits. *)
Theorem poll_threads_bounded (allowed : http_outcome -> bool) (s : App) :
  reachable allowed s -> Forall (fun c => c <= max_polls) (poll_threads s).
Proof.
  intros Hr. induction Hr as [uuid start configured | s s' Hr IH Hstep].
  - constructor.
  - destruct Hstep.
    + exact (view_bound _ _ (complete_onboarding_view _ _ _ _ _) IH).
    + exact (view_bound _ _ (add_message_view _ _ _ _) IH).
    + exact (view_bound _ _ (bot_response_view _ _ _) IH).
    + exact (view_bound _ _ (generate_view _ _ _) IH).
    + apply push_bound, IH.
    + exact (view_bound _ _ (clear_conversation_view _) IH).
    + eapply thread_turn_bound; [exact (poll_inv_reachable _ _ Hr)|eassumption|exact IH].
Qed.

Lemma poll_threads_bounded_witness :
  reachable (fun _ => true) sess3 /\
  Forall (fun c => c <= max_polls) (poll_threads sess3).
Proof.
  split; [apply sess3_reachable; reflexivity|].
  apply (poll_threads_bounded (fun _ => true)). apply sess3_reachable; reflexivity.
Defined.

(** ** Saving what the report button produced *)



(** ** A new conversation followed by a text turn *)

(** After "New Conversation", a text-only turn on an onboarded session
    starts the shown and stored history afresh and makes the observations
    exactly the new text, while the model's conversation still holds every
    earlier turn with the new one appended. *)
Theorem clear_then_turn (s : App) (m : mm_message) (now : clock) :
  is_onboarded s = true -> m_files m = [] -> str_truthy (m_text m) = true ->
  let '(chat, s1) := clear_conversation s in
  let '(chat2, s2) := add_message s1 chat m now in
  chat2 = [HText "user" (m_text m)] /\
  conversation_history (report_data s2) = [HText "user" (m_text m)] /\
  parent_observations (assessment_data (report_data s2)) = m_text m /\
  ollama_conversation s2 =
    app (ollama_conversation s) [{| cm_role := "user"; cm_content := m_text m |}].
Proof.
  intros Hon Hf Ht. unfold clear_conversation, add_message. simpl.
  rewrite Hon. simpl. rewrite Hf. simpl. rewrite Ht. simpl.
  repeat split.
Qed.

Lemma clear_then_turn_witness :
  is_onboarded sess2 = true /\ m_files turn_a = [] /\ str_truthy (m_text turn_a) = true /\
  let '(chat, s1) := clear_conversation sess2 in
  let '(chat2, s2) := add_message s1 chat turn_a (at_time "2026-10-14T10:05:00") in
  chat2 = [HText "user" (m_text turn_a)] /\
  conversation_history (report_data s2) = [HText "user" (m_text turn_a)] /\
  parent_observations (assessment_data (report_data s2)) = m_text turn_a /\
  ollama_conversation s2 =
    app (ollama_conversation sess2) [{| cm_role := "user"; cm_content := m_text turn_a |}].
Proof.
  split; [vm_compute; reflexivity|]. split; [reflexivity|]. split; [reflexivity|].
  apply clear_then_turn; [vm_compute; reflexivity|reflexivity|reflexivity].
Defined.

(** ** Which model call follows a turn *)

(** On the history an onboarded turn returns, [bot_response] makes the
    text request whenever the turn had text, even if files came with it
    (they are appended before the text); a files-only turn whose last file
    has a non-empty path makes the image request for that last file. *)
Theorem bot_request_after_turn (s : App) (h : list hist_entry) (m : mm_message)
    (now : clock) :
  is_onboarded s = true ->
  (str_truthy (m_text m) = true -> bot_request (fst (add_message s h m now)) = TextCall) /\
  (forall fs f, m_text m = EmptyString -> m_files m = app fs [f] -> str_truthy f = true ->
     bot_request (fst (add_message s h m now)) = ImageCall f).
Proof.
  intros Hon. unfold add_message. rewrite Hon. simpl.
  pose proof (add_files_spec (m_files m) now 0 h s) as Hs.
  destruct (add_files (m_files m) now 0 h s) as [h1 s1].
  destruct Hs as [Hh _]. split.
  - intros Ht. rewrite Ht. simpl.
    unfold bot_request. rewrite rev_app_distr. reflexivity.
  - intros fs f Ht Hf Hp. rewrite Ht. simpl.
    rewrite Hh, Hf, map_app. simpl.
    unfold bot_request. rewrite !rev_app_distr. simpl. fold (str_truthy f). rewrite Hp. reflexivity.
Qed.

Lemma bot_request_after_turn_witness :
  is_onboarded sess1 = true /\
  bot_request (fst (add_message sess1 [] turn_photo_caption (at_time "2026-10-14T10:02:00"))) = TextCall /\
  bot_request (fst (add_message sess1 [] turn_photo (at_time "2026-10-14T10:02:00"))) =
    ImageCall "uploads/family.jpg".
Proof.
  assert (Hon : is_onboarded sess1 = true) by (vm_compute; reflexivity).
  destruct (bot_request_after_turn sess1 [] turn_photo_caption (at_time "2026-10-14T10:02:00") Hon)
    as [H1 _].
  destruct (bot_request_after_turn sess1 [] turn_photo (at_time "2026-10-14T10:02:00") Hon)
    as [_ H2].
  split; [exact Hon|]. split.
  - apply H1. reflexivity.
  - apply (H2 ["uploads/drawing_1.png"]); reflexivity.
Defined.
